(** * Marathon training tools: a verified model of [tools/training_tools.py]

    The module holds four tool functions: [calculate_acwr],
    [adjust_paces_from_race], [calculate_weekly_mileage_progression] and
    [get_corrective_exercises].  They are embedded below over Rocq's
    primitive binary64 floats, which are the IEEE 754 doubles of a Python
    [float]; the Python builtins the functions call ([round], [min], [max],
    [sum], [//], [%], [int], [str] and the format specifications) are
    modelled next to them.  The profile store of
    [sessions/profile_manager.py] ([UserProfile], [save_profile] and
    [load_profile]) is embedded after the tools. *)

From Stdlib Require Import ZArith List String Ascii Bool Lia.
From Stdlib Require Import Floats DecimalString.
Import ListNotations.

Set Warnings "-inexact-float,-register-all".

Local Open Scope Z_scope.

(** ** Outcomes: a call returns a value or raises *)

Inductive exn : Type :=
| ZeroDivisionError
| IndexError
| ValueError
| OverflowError.

Inductive outcome (A : Type) : Type :=
| Returns (a : A)
| Raises (e : exn).

Arguments Returns {A} a.
Arguments Raises {A} e.

Definition bind {A B : Type} (c : outcome A) (k : A -> outcome B) : outcome B :=
  match c with
  | Returns a => k a
  | Raises e => Raises e
  end.

Notation "x <- c ;; k" := (bind c (fun x => k))
  (at level 61, c at next level, right associativity).

(** ** Python values and dictionaries

    A dictionary keeps its keys in insertion order, so it is a list of
    bindings; [dict_set] overwrites in place or appends, as Python does. *)

Inductive value : Type :=
| VNone
| VBool (b : bool)
| VInt (n : Z)
| VFloat (x : float)
| VStr (s : string)
| VList (l : list value)
| VDict (d : list (string * value)).

Definition dict : Type := list (string * value).

Fixpoint dict_get (k : string) (d : dict) : option value :=
  match d with
  | [] => None
  | (k', v) :: d' => if String.eqb k k' then Some v else dict_get k d'
  end.

Fixpoint dict_set (k : string) (v : value) (d : dict) : dict :=
  match d with
  | [] => [(k, v)]
  | (k', v') :: d' =>
      if String.eqb k k' then (k', v) :: d' else (k', v') :: dict_set k v d'
  end.

Definition dict_mem (k : string) (d : dict) : bool :=
  match dict_get k d with
  | Some _ => true
  | None => false
  end.

Definition dict_keys (d : dict) : list string := map fst d.

(** [{**a, **b}]: the bindings of [b] are written over [a] from left to right. *)
Definition dict_update (a b : dict) : dict :=
  fold_left (fun acc kv => dict_set (fst kv) (snd kv) acc) b a.

(** ** Floats *)

Module PyFloat.

Local Open Scope float_scope.

(** Python's two-argument [min] and [max] keep the first argument unless
    the second one compares strictly better. *)
Definition py_min (a b : float) : float := if b <? a then b else a.
Definition py_max (a b : float) : float := if a <? b then b else a.

(** [sum(l)]: left-to-right accumulation from 0, as CPython's float loop
    adds; the compensated sum of CPython 3.12 and later agrees with it
    whenever the partial sums are exact. *)
Definition py_sum (l : list float) : float := fold_left add l 0.

(** [x / y] raises on a zero divisor. *)
Definition py_div (x y : float) : outcome float :=
  if y =? 0 then Raises ZeroDivisionError else Returns (x / y).

(** Truth value of a float: anything but a zero. *)
Definition truthy (x : float) : bool := negb (x =? 0).

Local Close Scope float_scope.

(** The integer nearest to [n / d] for [d > 0], ties to the even one. *)
Definition round_half_even (n d : Z) : Z :=
  let q := n / d in
  match (2 * (n mod d)) ?= d with
  | Lt => q
  | Gt => q + 1
  | Eq => if Z.even q then q else q + 1
  end.

(** The double nearest to [n / d], with the given sign. *)
Definition float_of_ratio (neg : bool) (n d : positive) : float :=
  SF2Prim (SFdiv prec emax (S754_finite neg n 0) (S754_finite false d 0)).

Definition float_of_Z (z : Z) : float :=
  SF2Prim (binary_normalize prec emax z 0 false).

Definition signed_zero (neg : bool) : float := SF2Prim (S754_zero neg).

(** [m * 2^e * p] as a fraction. *)
Definition scaled (m : positive) (e p : Z) : Z * Z :=
  if 0 <=? e then (Zpos m * 2 ^ e * p, 1) else (Zpos m * p, 2 ^ (- e)).

(** [round(x, ndigits)] for [ndigits >= 0]: the exact binary value is
    rounded half-even at that decimal place and the decimal is read back
    as the nearest double; infinities and NaN round to themselves. *)
Definition py_round (x : float) (ndigits : nat) : float :=
  match Prim2SF x with
  | S754_finite s m e =>
      let p := (10 ^ Z.of_nat ndigits)%Z in
      let '(n, d) := scaled m e p in
      match round_half_even n d with
      | Zpos k => float_of_ratio s k (Z.to_pos p)
      | _ => signed_zero s
      end
  | _ => x
  end.

(** C's [floor]. *)
Definition c_floor (x : float) : float :=
  match Prim2SF x with
  | S754_finite s m e =>
      if (0 <=? e)%Z then x
      else match ((if s then Zneg m else Zpos m) / 2 ^ (- e))%Z with
           | Z0 => signed_zero s
           | q => float_of_Z q
           end
  | _ => x
  end.

(** C's [fmod]: the exact remainder of the truncated quotient, with the
    sign of [x]. *)
Definition c_fmod (x y : float) : float :=
  match Prim2SF x, Prim2SF y with
  | S754_nan, _ | _, S754_nan => nan
  | S754_infinity _, _ => nan
  | _, S754_zero _ => nan
  | _, S754_infinity _ => x
  | S754_zero _, _ => x
  | S754_finite sx mx ex, S754_finite _ my ey =>
      let ez := Z.min ex ey in
      match ((Zpos mx * 2 ^ (ex - ez)) mod (Zpos my * 2 ^ (ey - ez)))%Z with
      | Zpos r =>
          SF2Prim
            (binary_normalize prec emax (if sx then Zneg r else Zpos r) ez false)
      | _ => signed_zero sx
      end
  end.

Local Open Scope float_scope.

(** [copysign(0.0, w)]. *)
Definition copysign_zero (w : float) : float := signed_zero (get_sign w).

(** [float.__mod__] (CPython's [float_rem]): the remainder takes the
    sign of the divisor; a zero divisor raises. *)
Definition rem_value (vx wx : float) : float :=
  let md := c_fmod vx wx in
  if negb (md =? 0) then
    if negb (Bool.eqb (wx <? 0) (md <? 0)) then md + wx else md
  else copysign_zero wx.

Definition float_rem (vx wx : float) : outcome float :=
  if wx =? 0 then Raises ZeroDivisionError else Returns (rem_value vx wx).

(** [float.__floordiv__] (CPython's [float_floor_div] over
    [_float_div_mod]): the quotient of [vx - fmod(vx, wx)], snapped to the
    nearest integral value. *)
Definition floor_div_value (vx wx : float) : float :=
  let md := c_fmod vx wx in
  let dv := (vx - md) / wx in
  let dv :=
    if negb (md =? 0) && negb (Bool.eqb (wx <? 0) (md <? 0))
    then dv - 1 else dv in
  if negb (dv =? 0) then
    let fl := c_floor dv in
    if 0.5 <? dv - fl then fl + 1 else fl
  else copysign_zero (vx / wx).

Definition float_floor_div (vx wx : float) : outcome float :=
  if wx =? 0 then Raises ZeroDivisionError else Returns (floor_div_value vx wx).

Local Close Scope float_scope.

(** [int(x)]: truncation; NaN and the infinities raise. *)
Definition py_int (x : float) : outcome Z :=
  match Prim2SF x with
  | S754_nan => Raises ValueError
  | S754_infinity _ => Raises OverflowError
  | S754_zero _ => Returns 0
  | S754_finite s m e =>
      let a := if 0 <=? e then Zpos m * 2 ^ e else Zpos m / 2 ^ (- e) in
      Returns (if s then - a else a)
  end.

(** ** Formatting *)

Local Open Scope string_scope.

(** [str(n)] for an [int]. *)
Definition str_int (n : Z) : string := NilZero.string_of_int (Z.to_int n).

(** [format(n, "02d")]: zero-padded to two characters, sign included. *)
Definition format_02d (n : Z) : string :=
  if ((0 <=? n) && (n <? 10))%Z then "0" ++ str_int n else str_int n.

Definition sign_str (neg : bool) : string := if neg then "-" else "".

Fixpoint zeros (n : nat) : string :=
  match n with
  | O => ""
  | S n' => "0" ++ zeros n'
  end.

(** [format(x, ".1f")]: one decimal, the exact value rounded half-even. *)
Definition format_1f (x : float) : string :=
  match Prim2SF x with
  | S754_nan => "nan"
  | S754_infinity s => sign_str s ++ "inf"
  | S754_zero s => sign_str s ++ "0.0"
  | S754_finite s m e =>
      let '(n, d) := scaled m e 10 in
      let r := round_half_even n d in
      sign_str s ++ str_int (r / 10)%Z ++ "." ++ str_int (r mod 10)%Z
  end.

(** *** [repr] of a float: the shortest decimal that reads back as it *)

(** [m * 2^e] against [n * 10^q]. *)
Definition cmp_dec (m : positive) (e n q : Z) : comparison :=
  ((Zpos m * (if 0 <=? e then 2 ^ e else 1) * (if 0 <=? q then 1 else 10 ^ (- q)))
   ?= (n * (if 0 <=? q then 10 ^ q else 1) * (if 0 <=? e then 1 else 2 ^ (- e))))%Z.

(** [floor (m * 2^e / 10^q)]. *)
Definition floor_dec (m : positive) (e q : Z) : Z :=
  ((Zpos m * (if 0 <=? e then 2 ^ e else 1) * (if 0 <=? q then 1 else 10 ^ (- q)))
   / ((if 0 <=? q then 10 ^ q else 1) * (if 0 <=? e then 1 else 2 ^ (- e))))%Z.

(** The double nearest to [n * 10^q]. *)
Definition float_of_dec (n : positive) (q : Z) : float :=
  if (0 <=? q)%Z then float_of_ratio false (n * Z.to_pos (10 ^ q)) 1
  else float_of_ratio false n (Z.to_pos (10 ^ (- q))).

(** The largest [k] with [10^k <= m * 2^e], searched upwards from an
    underestimate taken from the bit length. *)
Fixpoint exp10_from (fuel : nat) (m : positive) (e k : Z) : Z :=
  match fuel with
  | O => k
  | S fuel' =>
      match cmp_dec m e 1 (k + 1)%Z with
      | Lt => k
      | _ => exp10_from fuel' m e (k + 1)%Z
      end
  end.

Definition exp10 (m : positive) (e : Z) : Z :=
  exp10_from 4 m e (((Z.log2 (Zpos m) + e) * 30103) / 100000 - 1)%Z.

Definition reads_back (m : positive) (e : Z) (n q : Z) : bool :=
  match n with
  | Zpos n' =>
      match Prim2SF (float_of_dec n' q) with
      | S754_finite _ m' e' => Pos.eqb m m' && Z.eqb e e'
      | _ => false
      end
  | _ => false
  end.

(** The digits [n] and exponent [q] of the shortest decimal [n * 10^q]
    that reads back as [m * 2^e], the nearest one when two qualify. *)
Fixpoint shortest_from (fuel : nat) (m : positive) (e k p : Z) : Z * Z :=
  let q := (k - p + 1)%Z in
  let lo := floor_dec m e q in
  let hi := (lo + 1)%Z in
  match fuel with
  | O => (lo, q)
  | S fuel' =>
      match reads_back m e lo q, reads_back m e hi q with
      | true, true =>
          match cmp_dec m (e + 1)%Z (2 * lo + 1)%Z q with
          | Lt => (lo, q)
          | Gt => (hi, q)
          | Eq => if Z.even lo then (lo, q) else (hi, q)
          end
      | true, false => (lo, q)
      | false, true => (hi, q)
      | false, false => shortest_from fuel' m e k (p + 1)%Z
      end
  end.

Fixpoint strip_zeros (fuel : nat) (n q : Z) : Z * Z :=
  match fuel with
  | O => (n, q)
  | S fuel' =>
      if (n mod 10 =? 0)%Z then strip_zeros fuel' (n / 10)%Z (q + 1)%Z else (n, q)
  end.

Definition shortest_digits (m : positive) (e : Z) : string * Z :=
  let '(n, q) := shortest_from 17 m e (exp10 m e) 1 in
  let '(n, q) := strip_zeros 17 n q in
  let ds := str_int n in
  (ds, (Z.of_nat (String.length ds) + q)%Z).

(** [repr(x)], which is also [str(x)] and [format(x, "")]. *)
Definition float_repr (x : float) : string :=
  match Prim2SF x with
  | S754_nan => "nan"
  | S754_infinity s => sign_str s ++ "inf"
  | S754_zero s => sign_str s ++ "0.0"
  | S754_finite s m e =>
      let '(ds, decpt) := shortest_digits m e in
      let len := String.length ds in
      sign_str s ++
      (if ((decpt <=? -4) || (16 <? decpt))%Z then
         substring 0 1 ds
         ++ (if (1 <? len)%nat then "." ++ substring 1 (len - 1) ds else "")
         ++ "e" ++ (if (decpt - 1 <? 0)%Z then "-" else "+")
         ++ format_02d (Z.abs (decpt - 1))
       else if (decpt <=? 0)%Z then
         "0." ++ zeros (Z.to_nat (- decpt)) ++ ds
       else if (Z.of_nat len <=? decpt)%Z then
         ds ++ zeros (Z.to_nat decpt - len) ++ ".0"
       else
         substring 0 (Z.to_nat decpt) ds ++ "."
         ++ substring (Z.to_nat decpt) (len - Z.to_nat decpt) ds)
  end.

Local Close Scope string_scope.

End PyFloat.

(** ** The tool functions of [tools/training_tools.py]

    Arguments annotated [float] are floats here; where Python would hand
    back one of the [int] literals of the source unchanged (the clamp
    bounds [25] and [85], a target given as an [int]) the model holds the
    float of the same value. *)

Module TrainingTools.

Import PyFloat.

Local Open Scope string_scope.
Local Open Scope float_scope.

(** *** [calculate_acwr] *)

(** The [if]/[elif] chain on the ratio. *)
Definition classify_risk (ratio : float) : string * string :=
  if 1.5 <? ratio then
    ("HIGH", "REDUCE_LOAD_IMMEDIATELY - High injury risk detected")
  else if 1.3 <? ratio then
    ("ELEVATED", "CAUTION - Monitor closely and consider reducing load")
  else if ratio <? 0.8 then
    ("UNDERTRAINING", "Consider increasing training load gradually")
  else
    ("SAFE", "Training load is well-balanced - continue current progression").

Definition calculate_acwr (last_7_days last_28_days : list float) : outcome dict :=
  acute_load <- py_div (py_sum last_7_days) 7 ;;
  chronic_load <- py_div (py_sum last_28_days) 28 ;;
  if chronic_load =? 0 then
    Returns
      [ ("status", VStr "error");
        ("ratio", VInt 0);
        ("risk_level", VStr "INSUFFICIENT_DATA");
        ("recommendation", VStr "Need at least 4 weeks of training data");
        ("acute_load", VFloat acute_load);
        ("chronic_load", VInt 0) ]
  else
    ratio <- py_div acute_load chronic_load ;;
    let '(risk_level, recommendation) := classify_risk ratio in
    Returns
      [ ("status", VStr "success");
        ("ratio", VFloat (py_round ratio 2));
        ("risk_level", VStr risk_level);
        ("recommendation", VStr recommendation);
        ("acute_load", VFloat (py_round acute_load 1));
        ("chronic_load", VFloat (py_round chronic_load 1));
        ("acute_weekly", VFloat (py_round (acute_load * 7) 1));
        ("chronic_weekly", VFloat (py_round (chronic_load * 7) 1)) ].

(** *** [adjust_paces_from_race] *)

Definition estimate_vdot (race_pace : float) : float :=
  py_max 25 (py_min 85 (35 + (10 - race_pace) * 3.5)).

Definition predict_marathon (race_distance_miles race_pace : float) : float :=
  if 20 <=? race_distance_miles then race_pace * 26.2 * 1.02
  else if 13 <=? race_distance_miles then race_pace * 26.2 * 1.05
  else race_pace * 26.2 * 1.08.

(** [f"{int(t // 60)}:{int(t % 60):02d}"] *)
Definition prediction_time (marathon_prediction : float) : outcome string :=
  h <- float_floor_div marathon_prediction 60 ;;
  hours <- py_int h ;;
  m <- float_rem marathon_prediction 60 ;;
  minutes <- py_int m ;;
  Returns (str_int hours ++ ":" ++ format_02d minutes).

(** The conditional expression under ["improvement"]; an omitted
    [current_vdot] is its default [None]. *)
Definition improvement (current_vdot : option float) (estimated_vdot : float) : value :=
  match current_vdot with
  | Some v =>
      if truthy v then
        VStr ("VDOT improved from " ++ float_repr v ++ " to " ++ format_1f estimated_vdot)
      else VNone
  | None => VNone
  end.

Definition adjust_paces_from_race
    (race_distance_miles race_time_minutes : float)
    (current_vdot : option float) : outcome dict :=
  race_pace <- py_div race_time_minutes race_distance_miles ;;
  let estimated_vdot := estimate_vdot race_pace in
  let easy_pace := race_pace + 1.5 in
  let tempo_pace := race_pace + 0.3 in
  let interval_pace := race_pace - 0.5 in
  let long_run_pace := race_pace + 1.0 in
  let marathon_prediction := predict_marathon race_distance_miles race_pace in
  time <- prediction_time marathon_prediction ;;
  Returns
    [ ("status", VStr "success");
      ("vdot", VFloat (py_round estimated_vdot 1));
      ("race_pace_per_mile", VFloat (py_round race_pace 2));
      ("paces",
        VDict
          [ ("easy", VFloat (py_round easy_pace 2));
            ("tempo", VFloat (py_round tempo_pace 2));
            ("interval", VFloat (py_round interval_pace 2));
            ("long_run", VFloat (py_round long_run_pace 2)) ]);
      ("marathon_prediction_minutes", VFloat (py_round marathon_prediction 1));
      ("marathon_prediction_time", VStr time);
      ("improvement", improvement current_vdot estimated_vdot) ].

(** *** [calculate_weekly_mileage_progression] *)

Definition max_increase_rates : list (string * float) :=
  [ ("beginner", 0.10); ("intermediate", 0.12); ("advanced", 0.15); ("elite", 0.18) ].

(** [rates.get(level, default)] *)
Fixpoint rates_get (rates : list (string * float)) (level : string) (default : float)
  : float :=
  match rates with
  | [] => default
  | (k, r) :: rates' => if String.eqb level k then r else rates_get rates' level default
  end.

Record week_entry : Type := mk_week
  { week : Z; mileage : float; type : string }.

Definition week_value (w : week_entry) : value :=
  VDict [ ("week", VInt (week w)); ("mileage", VFloat (mileage w)); ("type", VStr (type w)) ].

(** One pass of the loop body over the state [(current, weekly_plan)]. *)
Definition week_body (max_increase target_mileage : float)
    (st : float * list week_entry) (wk : Z) : float * list week_entry :=
  let '(current, weekly_plan) := st in
  let '(current, week_type) :=
    if (wk mod 4 =? 0)%Z then (current * 0.8, "recovery")
    else
      let increase := py_min (current * max_increase) (target_mileage - current) in
      (py_min (current + increase) target_mileage, "build")
  in
  (current, (weekly_plan ++ [mk_week wk (py_round current 1) week_type])%list).

(** [range(a, b)] *)
Definition py_range (a b : Z) : list Z :=
  map (fun i => (a + Z.of_nat i)%Z) (seq 0 (Z.to_nat (b - a))).

Definition run_weeks (max_increase current_mileage target_mileage : float)
    (weeks_available : Z) : float * list week_entry :=
  fold_left (week_body max_increase target_mileage)
    (py_range 1 (weeks_available + 1)) (current_mileage, []).

(** [l[-1]] *)
Definition last_item {A : Type} (l : list A) : outcome A :=
  match rev l with
  | [] => Raises IndexError
  | a :: _ => Returns a
  end.

Definition calculate_weekly_mileage_progression
    (current_mileage target_mileage : float) (weeks_available : Z)
    (ability_level : string) : outcome dict :=
  let max_increase := rates_get max_increase_rates ability_level 0.10 in
  let weekly_plan :=
    snd (run_weeks max_increase current_mileage target_mileage weeks_available) in
  final <- last_item weekly_plan ;;
  let final_mileage := mileage final in
  let is_safe := target_mileage * 0.9 <=? final_mileage in
  Returns
    [ ("status", VStr "success");
      ("weekly_plan", VList (map week_value weekly_plan));
      ("final_mileage", VFloat (py_round final_mileage 1));
      ("target_mileage", VFloat target_mileage);
      ("is_achievable", VBool is_safe);
      ("max_weekly_increase", VStr (float_repr (max_increase * 100) ++ "%"));
      ("recommendation",
        VStr (if is_safe then "Safe progression"
              else "Target too aggressive - need more weeks")) ].

(** *** [get_corrective_exercises]

    The exercise library is the JSON document [data/exercise_library.json],
    read on every call.  What the [try] block meets is an input here: the
    file is missing ([FileNotFoundError]); some other exception is raised,
    with its message, by [open], by [json.load] or by the use of a document
    that is not an object of protocol records; or the document loads as an
    object whose values are protocol records. *)

Inductive library_load : Type :=
| FileNotFound
| LoadFailed (message : string)
| Loaded (exercise_library : list (string * dict)).

Fixpoint library_get (injury_type : string) (lib : list (string * dict)) : option dict :=
  match lib with
  | [] => None
  | (k, p) :: lib' => if String.eqb injury_type k then Some p else library_get injury_type lib'
  end.

Definition get_corrective_exercises (library : library_load) (injury_type : string)
  : dict :=
  match library with
  | Loaded exercise_library =>
      match library_get injury_type exercise_library with
      | Some protocol => dict_update [ ("status", VStr "success") ] protocol
      | None =>
          let available := map fst exercise_library in
          [ ("status", VStr "error");
            ("error_message", VStr ("Unknown injury type: " ++ injury_type));
            ("available_types", VList (map VStr available)) ]
      end
  | FileNotFound =>
      [ ("status", VStr "error");
        ("error_message", VStr "Exercise library file not found") ]
  | LoadFailed message =>
      [ ("status", VStr "error");
        ("error_message", VStr ("Error loading exercises: " ++ message)) ]
  end.

End TrainingTools.

(** ** [sessions/profile_manager.py]

    The users file holds the JSON object [{"users": [...]}].  [json.dump]
    and [json.load] are inverse to each other on the values stored here, so
    the file is carried as what [data.get('users', [])] reads from it: the
    list of user objects, or nothing when the file does not exist.  The
    model covers files whose [users] entry is a list of objects.

    [datetime], [datetime.isoformat] and [datetime.fromisoformat] belong to
    the Python library and are parameters; [fromisoformat] gives [None]
    where Python raises [ValueError] on a string it cannot read. *)

Module ProfileManager.

Local Open Scope string_scope.

Inductive load_exn : Type := TypeError | InvalidIsoformat.

Inductive save_report : Type := Updated | Created.

(** [d.get(k)] *)
Definition get_or_none (k : string) (d : dict) : value :=
  match dict_get k d with
  | Some v => v
  | None => VNone
  end.

(** [d.get(k, default)] *)
Definition get_or (k : string) (default : value) (d : dict) : value :=
  match dict_get k d with
  | Some v => v
  | None => default
  end.

(** [v == e] for a stored value and an [Optional[str]]. *)
Definition email_is (v : value) (e : option string) : bool :=
  match v, e with
  | VStr s, Some s' => String.eqb s s'
  | VNone, None => true
  | _, _ => false
  end.

(** Truth value of a stored value. *)
Definition value_truthy (v : value) : bool :=
  match v with
  | VNone => false
  | VBool b => b
  | VInt n => negb (n =? 0)%Z
  | VFloat x => PyFloat.truthy x
  | VStr s => negb (String.eqb s "")
  | VList l => match l with [] => false | _ => true end
  | VDict d => match d with [] => false | _ => true end
  end.

Definition is_not_none (v : value) : bool :=
  match v with
  | VNone => false
  | _ => true
  end.

Definition is_some {A : Type} (o : option A) : bool :=
  match o with
  | Some _ => true
  | None => false
  end.

Definition opt_str (o : option string) : value :=
  match o with
  | Some s => VStr s
  | None => VNone
  end.

Section Datetime.

Variable datetime : Type.
Variable isoformat : datetime -> string.
Variable fromisoformat : string -> option datetime.

Record UserProfile : Type := mk_profile
  { name : value;
    email : option string;
    age : value;
    weight : value;
    goal_distance : value;
    ability_level : value;
    current_weekly_mileage : value;
    goal_race_date : option datetime;
    has_milestone : value;
    milestone_date : option datetime;
    milestone_distance : value }.

(** [UserProfile()] *)
Definition new_profile : UserProfile :=
  mk_profile VNone None VNone VNone VNone VNone VNone None (VBool false) None VNone.

Definition is_complete (self : UserProfile) : bool :=
  is_not_none (name self) && is_some (email self) && is_not_none (age self)
  && is_not_none (goal_distance self) && is_not_none (ability_level self)
  && is_not_none (current_weekly_mileage self) && is_some (goal_race_date self).

(** [d.isoformat() if d else None]; a [datetime] is always true. *)
Definition iso_or_none (d : option datetime) : value :=
  match d with
  | Some d => VStr (isoformat d)
  | None => VNone
  end.

Definition to_dict (self : UserProfile) : dict :=
  [ ("name", name self);
    ("email", opt_str (email self));
    ("age", age self);
    ("weight", weight self);
    ("goal_distance", goal_distance self);
    ("ability_level", ability_level self);
    ("current_weekly_mileage", current_weekly_mileage self);
    ("goal_race_date", iso_or_none (goal_race_date self));
    ("has_milestone", has_milestone self);
    ("milestone_date", iso_or_none (milestone_date self));
    ("milestone_distance", milestone_distance self) ].

(** The loop of [save_profile]: the first user with the profile's email is
    replaced; [None] when the loop ends without a match. *)
Fixpoint replace_first (e : option string) (profile_dict : dict) (users : list dict)
  : option (list dict) :=
  match users with
  | [] => None
  | user :: users' =>
      if email_is (get_or_none "email" user) e then Some (profile_dict :: users')
      else option_map (cons user) (replace_first e profile_dict users')
  end.

(** The users written back to the file, and which of the two messages was
    printed. *)
Definition save_profile (profile : UserProfile) (file : option (list dict))
  : list dict * save_report :=
  let users := match file with Some users => users | None => [] end in
  let profile_dict := to_dict profile in
  match replace_first (email profile) profile_dict users with
  | Some users' => (users', Updated)
  | None => ((users ++ [profile_dict])%list, Created)
  end.

(** [datetime.fromisoformat(v)] *)
Definition parse_date (v : value) : load_exn + datetime :=
  match v with
  | VStr s =>
      match fromisoformat s with
      | Some d => inr d
      | None => inl InvalidIsoformat
      end
  | _ => inl TypeError
  end.

(** The body of the loop of [load_profile] once [user_data] has matched
    [email]; its stored email is then the string [email]. *)
Definition read_profile (email : string) (user_data : dict) : load_exn + UserProfile :=
  match parse_date (get_or_none "goal_race_date" user_data) with
  | inl e => inl e
  | inr goal =>
      let milestone_date_str := get_or_none "milestone_date" user_data in
      let milestone :=
        if value_truthy milestone_date_str
        then match parse_date milestone_date_str with
             | inl e => inl e
             | inr d => inr (Some d)
             end
        else inr None in
      match milestone with
      | inl e => inl e
      | inr milestone =>
          inr (mk_profile
                 (get_or_none "name" user_data)
                 (Some email)
                 (get_or_none "age" user_data)
                 (get_or_none "weight" user_data)
                 (get_or_none "goal_distance" user_data)
                 (get_or_none "ability_level" user_data)
                 (get_or_none "current_weekly_mileage" user_data)
                 (Some goal)
                 (get_or "has_milestone" (VBool false) user_data)
                 milestone
                 (get_or_none "milestone_distance" user_data))
      end
  end.

Fixpoint find_user (email : string) (users : list dict) : option dict :=
  match users with
  | [] => None
  | user_data :: users' =>
      if email_is (get_or_none "email" user_data) (Some email) then Some user_data
      else find_user email users'
  end.

Inductive loaded : Type :=
| Returned (profile : option UserProfile)
| Raised (e : load_exn).

Definition load_profile (email : string) (file : option (list dict)) : loaded :=
  match file with
  | None => Returned None
  | Some users =>
      match find_user email users with
      | None => Returned None
      | Some user_data =>
          match read_profile email user_data with
          | inl e => Raised e
          | inr profile => Returned (Some profile)
          end
      end
  end.

End Datetime.

Arguments mk_profile {datetime}.
Arguments name {datetime}.
Arguments email {datetime}.
Arguments age {datetime}.
Arguments weight {datetime}.
Arguments goal_distance {datetime}.
Arguments ability_level {datetime}.
Arguments current_weekly_mileage {datetime}.
Arguments goal_race_date {datetime}.
Arguments has_milestone {datetime}.
Arguments milestone_date {datetime}.
Arguments milestone_distance {datetime}.
Arguments is_complete {datetime}.
Arguments to_dict {datetime}.
Arguments save_profile {datetime}.
Arguments load_profile {datetime}.
Arguments read_profile {datetime}.
Arguments Returned {datetime}.
Arguments Raised {datetime}.

(** A stand-in for [datetime] used to run the definitions: a date is kept
    as the text after the letter [D] of its ISO form. *)
Definition text_isoformat (d : string) : string := String "D" d.

Definition text_fromisoformat (s : string) : option string :=
  match s with
  | String "D" d => Some d
  | _ => None
  end.

End ProfileManager.

(** Profiles named in the statements, their dates in the stand-in form. *)
Module ExampleProfiles.

Import ProfileManager.

Local Open Scope string_scope.

Definition ana : UserProfile string :=
  mk_profile (VStr "Ana") (Some "ana@example.org") (VInt 34) (VFloat 61.5)
    (VStr "Marathon") (VStr "intermediate") (VFloat 25) (Some "2026-10-11T00:00:00")
    (VBool true) (Some "2026-06-07T00:00:00") (VFloat 13.1).

(** An older record of the same runner. *)
Definition ana_before : UserProfile string :=
  mk_profile (VStr "Ana") (Some "ana@example.org") (VInt 33) VNone
    (VStr "Half Marathon") (VStr "beginner") (VFloat 12) (Some "2025-10-12T00:00:00")
    (VBool false) None VNone.

(** A profile whose race date was never filled in. *)
Definition ben : UserProfile string :=
  mk_profile (VStr "Ben") (Some "ben@example.org") (VInt 41) VNone
    (VStr "10K") (VStr "beginner") (VFloat 8) None
    (VBool false) None VNone.

Definition users_file : option (list dict) :=
  Some [ to_dict text_isoformat ben; to_dict text_isoformat ana_before ].

End ExampleProfiles.

(** ** Definitions used by the statements *)

(** *** The order of floats

    [SFcompare] orders the non-NaN floats as the lexicographic order of a
    rank: the class (infinities, signs, zero), then exponent and mantissa. *)

Definition rank (f : spec_float) : option (Z * Z * Z) :=
  match f with
  | S754_nan => None
  | S754_infinity true => Some (-2, 0, 0)
  | S754_finite true m e => Some (-1, - e, - Zpos m)
  | S754_zero _ => Some (0, 0, 0)
  | S754_finite false m e => Some (1, e, Zpos m)
  | S754_infinity false => Some (2, 0, 0)
  end.

Definition lex_lt (a b : Z * Z * Z) : Prop :=
  let '(c1, e1, m1) := a in
  let '(c2, e2, m2) := b in
  c1 < c2 \/ (c1 = c2 /\ (e1 < e2 \/ (e1 = e2 /\ m1 < m2))).

Definition lex_le (a b : Z * Z * Z) : Prop :=
  let '(c1, e1, m1) := a in
  let '(c2, e2, m2) := b in
  c1 < c2 \/ (c1 = c2 /\ (e1 < e2 \/ (e1 = e2 /\ m1 <= m2))).

Definition rank_lt (a b : spec_float) : Prop :=
  match rank a, rank b with
  | Some ra, Some rb => lex_lt ra rb
  | _, _ => False
  end.

Definition rank_le (a b : spec_float) : Prop :=
  match rank a, rank b with
  | Some ra, Some rb => lex_le ra rb
  | _, _ => False
  end.

Definition lex_eq (a b : Z * Z * Z) : Prop :=
  let '(c1, e1, m1) := a in
  let '(c2, e2, m2) := b in
  c1 = c2 /\ e1 = e2 /\ m1 = m2.

Definition rank_eq (a b : spec_float) : Prop :=
  match rank a, rank b with
  | Some ra, Some rb => lex_eq ra rb
  | _, _ => False
  end.

(** *** The progression plan as the specification words it

    Week [k] carries [previous * 0.8] when [k] is a multiple of 4, and
    otherwise [min(previous + min(previous * rate, target - previous),
    target)]. *)

Module PlanSpec.

Import PyFloat.

Local Open Scope string_scope.
Local Open Scope float_scope.

Definition week_kind (k : Z) : string :=
  if (k mod 4 =? 0)%Z then "recovery" else "build".

Definition next_mileage (rate target previous : float) (k : Z) : float :=
  if (k mod 4 =? 0)%Z then previous * 0.8
  else py_min (previous + py_min (previous * rate) (target - previous)) target.

Fixpoint carried (rate current target : float) (k : nat) : float :=
  match k with
  | O => current
  | S k' => next_mileage rate target (carried rate current target k') (Z.of_nat k)
  end.

Definition recorded (rate current target : float) (k : nat) : TrainingTools.week_entry :=
  TrainingTools.mk_week (Z.of_nat k)
    (py_round (carried rate current target k) 1) (week_kind (Z.of_nat k)).

End PlanSpec.

(** *** Results and inputs named in the statements *)

Module Results.

Import PyFloat TrainingTools.

Local Open Scope string_scope.
Local Open Scope float_scope.

(** The dictionary built once the pace and the display string exist. *)
Definition paces_result (race_distance_miles race_pace : float)
    (current_vdot : option float) (time : string) : dict :=
  [ ("status", VStr "success");
    ("vdot", VFloat (py_round (estimate_vdot race_pace) 1));
    ("race_pace_per_mile", VFloat (py_round race_pace 2));
    ("paces",
      VDict
        [ ("easy", VFloat (py_round (race_pace + 1.5) 2));
          ("tempo", VFloat (py_round (race_pace + 0.3) 2));
          ("interval", VFloat (py_round (race_pace - 0.5) 2));
          ("long_run", VFloat (py_round (race_pace + 1.0) 2)) ]);
    ("marathon_prediction_minutes",
      VFloat (py_round (predict_marathon race_distance_miles race_pace) 1));
    ("marathon_prediction_time", VStr time);
    ("improvement", improvement current_vdot (estimate_vdot race_pace)) ].

(** The answer to an unknown injury type. *)
Definition not_found (lib : list (string * dict)) (injury_type : string) : dict :=
  [ ("status", VStr "error");
    ("error_message", VStr ("Unknown injury type: " ++ injury_type));
    ("available_types", VList (map VStr (map fst lib))) ].

(** Four weeks of daily mileage summing to 1000 miles, the last week of
    them summing to 374 (quotient 1.496) and to 376 (quotient 1.504). *)
Definition week_374 : list float := [54; 53; 54; 53; 54; 53; 53].
Definition month_374 : list float := (repeat 30 20 ++ [26] ++ week_374)%list.
Definition week_376 : list float := [54; 54; 54; 53; 54; 54; 53].
Definition month_376 : list float := (repeat 30 20 ++ [24] ++ week_376)%list.

End Results.

(** The mantissa of the double 0.8, which is [m08 * 2^-53]. *)
Definition m08 : positive := 7205759403792794.

(** Whether the double nearest to [k / 10] lies in [[25, 85]]. *)
Definition tenth_in_range (k : positive) : bool :=
  ((25 <=? PyFloat.float_of_ratio false k 10)
   && (PyFloat.float_of_ratio false k 10 <=? 85))%float.

(** * Properties *)

(** ** The builtins on sample values

    What CPython prints for the same expressions. *)

Section Builtins.

Import PyFloat.

Local Open Scope string_scope.
Local Open Scope float_scope.

Example round_half_way_in_binary :
  py_round 2.675 2 = 2.67 /\ py_round 0.125 2 = 0.12 /\ py_round 35.1232 1 = 35.1.
Proof. repeat split; vm_compute; reflexivity. Qed.

Example round_keeps_the_sign_of_zero : py_round (-0.04) 1 = -0.
Proof. vm_compute. reflexivity. Qed.

Example floor_div_and_rem :
  float_floor_div 7.5 2 = Returns 3 /\ float_floor_div (-7.5) 2 = Returns (-4) /\
  float_rem 7.5 2 = Returns 1.5 /\ float_rem (-7.5) 2 = Returns 0.5 /\
  float_floor_div 220.08 60 = Returns 3 /\
  float_rem 220.08 60 = Returns 40.08000000000001 /\
  float_rem 1 0 = Raises ZeroDivisionError.
Proof. repeat split; vm_compute; reflexivity. Qed.

Example int_truncates :
  py_int (-3.99) = Returns (-3)%Z /\ py_int 40.08 = Returns 40%Z /\
  py_int nan = Raises ValueError /\ py_int infinity = Raises OverflowError.
Proof. repeat split; vm_compute; reflexivity. Qed.

Example repr_is_shortest :
  float_repr (0.1 + 0.2) = "0.30000000000000004" /\ float_repr 1e16 = "1e+16" /\
  float_repr 1e-5 = "1e-05" /\ float_repr 12 = "12.0" /\
  float_repr 0.00012 = "0.00012".
Proof. repeat split; vm_compute; reflexivity. Qed.

Example fixed_formats :
  format_1f 41.965 = "42.0" /\ format_1f 0.25 = "0.2" /\
  format_02d 5 = "05" /\ format_02d 40 = "40".
Proof. repeat split; vm_compute; reflexivity. Qed.

Example min_max_with_nan :
  py_min nan 1 = nan /\ py_min 1 nan = 1 /\ py_max 25 (py_min 85 nan) = 85.
Proof. repeat split; vm_compute; reflexivity. Qed.

End Builtins.

(** ** Float comparisons *)

Lemma SFltb_rank a b : SFltb a b = true <-> rank_lt a b.
Proof.
  unfold SFltb, rank_lt.
  destruct a as [[|]|[|]| |[|] m1 e1], b as [[|]|[|]| |[|] m2 e2]; simpl;
    try (split; [discriminate | lia]); try (split; [intros _; lia | reflexivity]);
    try tauto.
  all: change (Pos.compare_cont Eq m1 m2) with (Zpos m1 ?= Zpos m2).
  all: destruct (Z.compare_spec e1 e2); destruct (Z.compare_spec (Zpos m1) (Zpos m2));
    simpl; split; intros; try discriminate; try reflexivity; try lia.
Qed.

Lemma SFleb_rank a b : SFleb a b = true <-> rank_le a b.
Proof.
  unfold SFleb, rank_le.
  destruct a as [[|]|[|]| |[|] m1 e1], b as [[|]|[|]| |[|] m2 e2]; simpl;
    try (split; [discriminate | lia]); try (split; [intros _; lia | reflexivity]);
    try tauto.
  all: change (Pos.compare_cont Eq m1 m2) with (Zpos m1 ?= Zpos m2).
  all: destruct (Z.compare_spec e1 e2); destruct (Z.compare_spec (Zpos m1) (Zpos m2));
    simpl; split; intros; try discriminate; try reflexivity; try lia.
Qed.

Lemma SFeqb_rank a b : SFeqb a b = true <-> rank_eq a b.
Proof.
  unfold SFeqb, rank_eq.
  destruct a as [[|]|[|]| |[|] m1 e1], b as [[|]|[|]| |[|] m2 e2]; simpl;
    try (split; [discriminate | lia]); try (split; [intros _; lia | reflexivity]);
    try tauto.
  all: change (Pos.compare_cont Eq m1 m2) with (Zpos m1 ?= Zpos m2).
  all: destruct (Z.compare_spec e1 e2); destruct (Z.compare_spec (Zpos m1) (Zpos m2));
    simpl; split; intros; try discriminate; try reflexivity; try lia.
Qed.

Lemma ltb_true x y : (x <? y)%float = true <-> rank_lt (Prim2SF x) (Prim2SF y).
Proof. rewrite ltb_spec. apply SFltb_rank. Qed.

Lemma ltb_false x y : (x <? y)%float = false <-> ~ rank_lt (Prim2SF x) (Prim2SF y).
Proof. rewrite <- ltb_true. destruct (x <? y)%float; split; congruence. Qed.

Lemma leb_true x y : (x <=? y)%float = true <-> rank_le (Prim2SF x) (Prim2SF y).
Proof. rewrite leb_spec. apply SFleb_rank. Qed.

Lemma leb_false x y : (x <=? y)%float = false <-> ~ rank_le (Prim2SF x) (Prim2SF y).
Proof. rewrite <- leb_true. destruct (x <=? y)%float; split; congruence. Qed.

Lemma eqb_true x y : (x =? y)%float = true <-> rank_eq (Prim2SF x) (Prim2SF y).
Proof. rewrite eqb_spec. apply SFeqb_rank. Qed.

Lemma eqb_false x y : (x =? y)%float = false <-> ~ rank_eq (Prim2SF x) (Prim2SF y).
Proof. rewrite <- eqb_true. destruct (x =? y)%float; split; congruence. Qed.

Lemma is_nan_true x : is_nan x = true <-> rank (Prim2SF x) = None.
Proof.
  unfold is_nan. rewrite negb_true_iff, eqb_false. unfold rank_eq.
  destruct (rank (Prim2SF x)) as [[[c e] m]|]; simpl; split; intros H;
    try discriminate; tauto.
Qed.

(** A float with the rank of a positive finite float is that float. *)
Lemma rank_finite_inj x m e :
  rank (Prim2SF x) = Some (1, e, Zpos m) -> x = SF2Prim (S754_finite false m e).
Proof.
  intros H. rewrite <- (SF2Prim_Prim2SF x). f_equal.
  destruct (Prim2SF x) as [[|]|[|]| |[|] m' e']; simpl in H; try discriminate.
  inversion H. reflexivity.
Qed.

(** Comparisons in the context and the goal become facts about ranks, and
    the ranks of literals are computed. *)
Ltac is_literal c :=
  lazymatch c with
  | ?f _ => fail
  | _ => tryif is_var c then fail else tryif is_const c then fail else idtac
  end.

Ltac rank_literals :=
  repeat match goal with
  | |- context [rank (Prim2SF ?c)] =>
      is_literal c;
      let v := eval vm_compute in (rank (Prim2SF c)) in
      change (rank (Prim2SF c)) with v
  | H : context [rank (Prim2SF ?c)] |- _ =>
      is_literal c;
      let v := eval vm_compute in (rank (Prim2SF c)) in
      change (rank (Prim2SF c)) with v in H
  end.

Ltac to_ranks :=
  repeat match goal with
  | H : (_ <? _)%float = true |- _ => apply ltb_true in H
  | H : (_ <? _)%float = false |- _ => apply ltb_false in H
  | H : (_ <=? _)%float = true |- _ => apply leb_true in H
  | H : (_ <=? _)%float = false |- _ => apply leb_false in H
  | H : (_ =? _)%float = true |- _ => apply eqb_true in H
  | H : (_ =? _)%float = false |- _ => apply eqb_false in H
  | H : is_nan _ = true |- _ => apply is_nan_true in H
  | |- (_ <? _)%float = true => apply ltb_true
  | |- (_ <? _)%float = false => apply ltb_false
  | |- (_ <=? _)%float = true => apply leb_true
  | |- (_ <=? _)%float = false => apply leb_false
  | |- (_ =? _)%float = true => apply eqb_true
  | |- (_ =? _)%float = false => apply eqb_false
  | |- is_nan _ = true => apply is_nan_true
  end;
  unfold rank_lt, rank_le, rank_eq in *;
  rank_literals.

Ltac float_order :=
  to_ranks;
  repeat match goal with
  | x := _ : float |- _ => clearbody x
  end;
  repeat match goal with
  | H : context [rank (Prim2SF ?x)] |- _ =>
      destruct (rank (Prim2SF x)) as [[[? ?] ?]|]
  | |- context [rank (Prim2SF ?x)] =>
      destruct (rank (Prim2SF x)) as [[[? ?] ?]|]
  end;
  unfold lex_lt, lex_le, lex_eq in *;
  try solve [ tauto | congruence | lia
            | intuition (try congruence; try lia)
            | match goal with H : Some _ = Some _ |- _ => inversion H; lia end ].

Lemma float_neq x y : PrimFloat.Leibniz.eqb x y = false -> x <> y.
Proof.
  intros H E. apply FloatAxioms.Leibniz.eqb_spec in E. congruence.
Qed.

(** ** [calculate_acwr] *)

Section Acwr.

Import PyFloat TrainingTools Results.

Local Open Scope string_scope.
Local Open Scope float_scope.

Lemma py_div_nonzero x y : (y =? 0) = false -> py_div x y = Returns (x / y).
Proof. unfold py_div. intros ->. reflexivity. Qed.

(** The two daily averages never raise: their divisors are literals. *)
Lemma acwr_unfold last7 last28 :
  calculate_acwr last7 last28 =
  let acute_load := py_sum last7 / 7 in
  let chronic_load := py_sum last28 / 28 in
  if chronic_load =? 0 then
    Returns
      [ ("status", VStr "error");
        ("ratio", VInt 0);
        ("risk_level", VStr "INSUFFICIENT_DATA");
        ("recommendation", VStr "Need at least 4 weeks of training data");
        ("acute_load", VFloat acute_load);
        ("chronic_load", VInt 0) ]
  else
    let ratio := acute_load / chronic_load in
    Returns
      [ ("status", VStr "success");
        ("ratio", VFloat (py_round ratio 2));
        ("risk_level", VStr (fst (classify_risk ratio)));
        ("recommendation", VStr (snd (classify_risk ratio)));
        ("acute_load", VFloat (py_round acute_load 1));
        ("chronic_load", VFloat (py_round chronic_load 1));
        ("acute_weekly", VFloat (py_round (acute_load * 7) 1));
        ("chronic_weekly", VFloat (py_round (chronic_load * 7) 1)) ].
Proof.
  unfold calculate_acwr.
  rewrite (py_div_nonzero (py_sum last7) 7) by reflexivity.
  rewrite (py_div_nonzero (py_sum last28) 28) by reflexivity.
  cbn [bind]. cbv zeta.
  destruct (py_sum last28 / 28 =? 0) eqn:E; [reflexivity|].
  rewrite py_div_nonzero by exact E. cbn [bind].
  destruct (classify_risk _). reflexivity.
Qed.

Ltac risk_cases ratio :=
  unfold classify_risk;
  destruct (1.5 <? ratio) eqn:?; [|destruct (1.3 <? ratio) eqn:?;
    [|destruct (ratio <? 0.8) eqn:?]]; cbn [fst].

Ltac risk_solve :=
  first [ reflexivity | discriminate | assumption
        | solve [float_order] | solve [exfalso; float_order] ].

Lemma risk_high ratio : fst (classify_risk ratio) = "HIGH" <-> (1.5 <? ratio) = true.
Proof. risk_cases ratio; split; intros; risk_solve. Qed.

Lemma risk_elevated ratio :
  fst (classify_risk ratio) = "ELEVATED" <->
  (1.3 <? ratio) = true /\ (ratio <=? 1.5) = true.
Proof.
  risk_cases ratio; split; try intros [? ?]; intros; try split; risk_solve.
Qed.

Lemma risk_undertraining ratio :
  fst (classify_risk ratio) = "UNDERTRAINING" <-> (ratio <? 0.8) = true.
Proof. risk_cases ratio; split; intros; risk_solve. Qed.

Lemma risk_safe ratio :
  fst (classify_risk ratio) = "SAFE" <->
  ((0.8 <=? ratio) = true /\ (ratio <=? 1.3) = true) \/ is_nan ratio = true.
Proof.
  risk_cases ratio; (split; [intros E | intros [[? ?]|?]]); try risk_solve.
  destruct (is_nan ratio) eqn:N; [right; reflexivity|left].
  assert (Hr : rank (Prim2SF ratio) <> None).
  { intros R. apply is_nan_true in R. congruence. }
  split; float_order.
Qed.

(** C2 (as stated, refuted): with daily loads summing to 10 over the week
    and 30 over the four weeks, the quotient of the two averages is
    1.3333333333333335 but the ratio returned is 1.33. *)
Lemma acwr_returned_ratio_is_rounded :
  let last7 := (repeat 0 6 ++ [10])%list in
  let last28 := (repeat 0 21 ++ [20] ++ last7)%list in
  (0 <? py_sum last28 / 28) = true /\
  exists r,
    calculate_acwr last7 last28 = Returns r /\
    dict_get "ratio" r = Some (VFloat 1.33) /\
    py_sum last7 / 7 / (py_sum last28 / 28) <> 1.33.
Proof.
  cbv zeta. split; [reflexivity|].
  eexists. split; [vm_compute; reflexivity|].
  split; [reflexivity|].
  apply float_neq. reflexivity.
Qed.

(** C2 (amended): when the 28-day average is positive the call returns;
    the ratio field is the quotient of the two averages rounded to two
    decimals, and the risk level is decided by the unrounded quotient
    alone: HIGH above 1.5, ELEVATED in (1.3, 1.5], UNDERTRAINING below 0.8,
    SAFE otherwise, which is the band [0.8, 1.3] (or a NaN quotient).  At
    1.5, 1.3 and 0.8 the levels are ELEVATED, SAFE and SAFE. *)
Theorem acwr_ratio_and_risk (last7 last28 : list float) :
  let acute := py_sum last7 / 7 in
  let chronic := py_sum last28 / 28 in
  let ratio := acute / chronic in
  (0 <? chronic) = true ->
  exists r risk,
    calculate_acwr last7 last28 = Returns r /\
    dict_get "status" r = Some (VStr "success") /\
    dict_get "ratio" r = Some (VFloat (py_round ratio 2)) /\
    dict_get "risk_level" r = Some (VStr risk) /\
    (risk = "HIGH" <-> (1.5 <? ratio) = true) /\
    (risk = "ELEVATED" <-> (1.3 <? ratio) = true /\ (ratio <=? 1.5) = true) /\
    (risk = "UNDERTRAINING" <-> (ratio <? 0.8) = true) /\
    (risk = "SAFE" <->
       ((0.8 <=? ratio) = true /\ (ratio <=? 1.3) = true) \/ is_nan ratio = true) /\
    (ratio = 1.5 -> risk = "ELEVATED") /\
    (ratio = 1.3 -> risk = "SAFE") /\
    (ratio = 0.8 -> risk = "SAFE").
Proof.
  intros acute chronic ratio Hpos.
  assert (Hnz : (chronic =? 0) = false) by (clear - Hpos; float_order).
  rewrite acwr_unfold. fold acute chronic. cbv zeta. rewrite Hnz. fold ratio.
  eexists. exists (fst (classify_risk ratio)).
  split; [reflexivity|]. split; [reflexivity|]. split; [reflexivity|].
  split; [reflexivity|].
  split; [apply risk_high|]. split; [apply risk_elevated|].
  split; [apply risk_undertraining|]. split; [apply risk_safe|].
  repeat split; intros ->; reflexivity.
Qed.

(** The hypothesis of [acwr_ratio_and_risk] holds for a week summing to 44
    miles after three weeks summing to 90. *)
Lemma acwr_ratio_and_risk_witness :
  let last7 := [10; 0; 8; 0; 12; 0; 14] in
  let last28 := (repeat 5 18 ++ repeat 0 3 ++ last7)%list in
  (0 <? py_sum last28 / 28) = true /\
  exists r risk,
    calculate_acwr last7 last28 = Returns r /\
    dict_get "ratio" r = Some (VFloat (py_round (py_sum last7 / 7 / (py_sum last28 / 28)) 2)) /\
    dict_get "risk_level" r = Some (VStr risk).
Proof.
  cbv zeta. split; [reflexivity|].
  destruct (acwr_ratio_and_risk [10; 0; 8; 0; 12; 0; 14]
              (repeat 5 18 ++ repeat 0 3 ++ [10; 0; 8; 0; 12; 0; 14])%list eq_refl)
    as (r & risk & Hr & _ & Hratio & Hrisk & _).
  exists r, risk. auto.
Defined.

(** C3 (as stated, refuted): for four weeks of zero mileage the call does
    return, but what it returns is marked as an error and has neither
    [acute_weekly] nor [chronic_weekly]. *)
Lemma acwr_zero_baseline_is_error_envelope :
  exists r,
    calculate_acwr (repeat 0 7) (repeat 0 28) = Returns r /\
    dict_get "status" r = Some (VStr "error") /\
    dict_get "acute_weekly" r = None /\
    dict_get "chronic_weekly" r = None.
Proof.
  eexists. split; [vm_compute; reflexivity|]. repeat split.
Qed.

(** C3 (amended): when the 28-day average is zero the call returns (it does
    not raise) a dictionary of exactly six fields: status ["error"], ratio
    0, risk level INSUFFICIENT_DATA, the recommendation "Need at least 4
    weeks of training data", the unrounded 7-day average and chronic load
    0. *)
Theorem acwr_insufficient_data (last7 last28 : list float) :
  (py_sum last28 / 28 =? 0) = true ->
  calculate_acwr last7 last28 =
  Returns
    [ ("status", VStr "error");
      ("ratio", VInt 0);
      ("risk_level", VStr "INSUFFICIENT_DATA");
      ("recommendation", VStr "Need at least 4 weeks of training data");
      ("acute_load", VFloat (py_sum last7 / 7));
      ("chronic_load", VInt 0) ].
Proof.
  intros H. rewrite acwr_unfold. cbv zeta. rewrite H. reflexivity.
Qed.

Lemma acwr_insufficient_data_witness :
  (py_sum (repeat 0 28) / 28 =? 0) = true /\
  calculate_acwr [3; 0; 4; 0; 5; 0; 6] (repeat 0 28) =
  Returns
    [ ("status", VStr "error");
      ("ratio", VInt 0);
      ("risk_level", VStr "INSUFFICIENT_DATA");
      ("recommendation", VStr "Need at least 4 weeks of training data");
      ("acute_load", VFloat (py_sum [3; 0; 4; 0; 5; 0; 6] / 7));
      ("chronic_load", VInt 0) ].
Proof.
  split; [reflexivity|].
  apply (acwr_insufficient_data [3; 0; 4; 0; 5; 0; 6] (repeat 0 28)). reflexivity.
Defined.

(** C10 (as stated, refuted in its example): the input whose quotient is
    1.496 is classified ELEVATED, not SAFE. *)
Lemma acwr_1496_is_elevated :
  (1.3 <? py_sum week_374 / 7 / (py_sum month_374 / 28)) = true /\
  (py_sum week_374 / 7 / (py_sum month_374 / 28) <? 1.5) = true /\
  exists r,
    calculate_acwr week_374 month_374 = Returns r /\
    dict_get "ratio" r = Some (VFloat 1.5) /\
    dict_get "risk_level" r = Some (VStr "ELEVATED") /\
    VStr "ELEVATED" <> VStr "SAFE".
Proof.
  split; [reflexivity|]. split; [reflexivity|].
  eexists. split; [vm_compute; reflexivity|]. repeat split. discriminate.
Qed.

(** C10 (amended): the risk level is decided by the full-precision quotient
    and the ratio is returned rounded to two decimals, so the returned
    ratio does not determine the returned risk level: the quotients 1.496
    and 1.504 are both returned as 1.5, the first with ELEVATED and the
    second with HIGH. *)
Theorem acwr_rounded_ratio_hides_risk :
  exists last7 last28 last7' last28' r r',
    calculate_acwr last7 last28 = Returns r /\
    calculate_acwr last7' last28' = Returns r' /\
    dict_get "ratio" r = Some (VFloat 1.5) /\
    dict_get "ratio" r' = Some (VFloat 1.5) /\
    dict_get "risk_level" r = Some (VStr "ELEVATED") /\
    dict_get "risk_level" r' = Some (VStr "HIGH") /\
    (py_sum last7 / 7 / (py_sum last28 / 28) <? 1.5) = true /\
    (1.5 <? py_sum last7' / 7 / (py_sum last28' / 28)) = true.
Proof.
  exists week_374, month_374, week_376, month_376.
  eexists. eexists.
  split; [vm_compute; reflexivity|].
  split; [vm_compute; reflexivity|].
  repeat split.
Qed.

End Acwr.

(** ** [adjust_paces_from_race] *)

Section Paces.

Import PyFloat TrainingTools Results.

Local Open Scope string_scope.
Local Open Scope float_scope.

(** [int] succeeds on every finite float. *)
Lemma py_int_finite x : is_finite x = true -> exists z, py_int x = Returns z.
Proof.
  unfold is_finite. rewrite negb_true_iff, orb_false_iff. intros [Hn Hi].
  unfold py_int, Prim2SF. rewrite Hn, Hi.
  destruct (is_zero x); [eexists; reflexivity|].
  destruct (Z.frexp x) as [r ex].
  destruct (shr_fexp _ _ _ _ _) as [mrs e'].
  destruct (shr_m mrs); eexists; reflexivity.
Qed.

Lemma py_int_returns_finite x z : py_int x = Returns z -> is_finite x = true.
Proof.
  unfold is_finite, py_int, Prim2SF.
  destruct (is_nan x); [discriminate|].
  destruct (is_zero x) eqn:Z; cbn [orb negb].
  - intros _. unfold is_zero in Z. unfold is_infinity.
    destruct (abs x =? infinity) eqn:A; [|reflexivity].
    exfalso. revert Z A. rewrite !eqb_spec, abs_spec.
    destruct (Prim2SF x) as [[|]|[|]| |[|] m e]; vm_compute; congruence.
  - destruct (is_infinity x); [discriminate|reflexivity].
Qed.

(** The display string exists exactly when the quotient and the remainder
    by 60 are finite. *)
Lemma prediction_time_finite mp :
  is_finite (floor_div_value mp 60) = true ->
  is_finite (rem_value mp 60) = true ->
  exists h m,
    py_int (floor_div_value mp 60) = Returns h /\
    py_int (rem_value mp 60) = Returns m /\
    prediction_time mp = Returns (str_int h ++ ":" ++ format_02d m).
Proof.
  intros Hh Hm.
  destruct (py_int_finite _ Hh) as [h Eh].
  destruct (py_int_finite _ Hm) as [m Em].
  exists h, m. split; [exact Eh|]. split; [exact Em|].
  unfold prediction_time, float_floor_div, float_rem.
  change (60 =? 0) with false. cbn [bind]. rewrite Eh. cbn [bind].
  rewrite Em. reflexivity.
Qed.

Lemma prediction_time_returns mp s :
  prediction_time mp = Returns s ->
  is_finite (floor_div_value mp 60) = true /\ is_finite (rem_value mp 60) = true.
Proof.
  unfold prediction_time, float_floor_div, float_rem.
  change (60 =? 0) with false. cbn [bind].
  destruct (py_int (floor_div_value mp 60)) as [h|] eqn:Eh; [|discriminate].
  cbn [bind].
  destruct (py_int (rem_value mp 60)) as [m|] eqn:Em; [|discriminate].
  intros _. split; eapply py_int_returns_finite; eassumption.
Qed.

Lemma adjust_paces_zero d t v :
  (d =? 0) = true -> adjust_paces_from_race d t v = Raises ZeroDivisionError.
Proof.
  intros H. unfold adjust_paces_from_race, py_div. rewrite H. reflexivity.
Qed.

Lemma adjust_paces_nonzero d t v :
  (d =? 0) = false ->
  adjust_paces_from_race d t v =
  (time <- prediction_time (predict_marathon d (t / d)) ;;
   Returns (paces_result d (t / d) v time)).
Proof.
  intros H. unfold adjust_paces_from_race, py_div. rewrite H. reflexivity.
Qed.

(** The call returns exactly when the distance is not zero and the
    predicted time can be split into finite hours and minutes. *)
Lemma adjust_paces_returns d t v :
  (d =? 0) = false ->
  is_finite (floor_div_value (predict_marathon d (t / d)) 60) = true ->
  is_finite (rem_value (predict_marathon d (t / d)) 60) = true ->
  exists time,
    adjust_paces_from_race d t v = Returns (paces_result d (t / d) v time).
Proof.
  intros Hd Hh Hm. rewrite adjust_paces_nonzero by exact Hd.
  destruct (prediction_time_finite _ Hh Hm) as (h & m & _ & _ & E).
  rewrite E. eexists. reflexivity.
Qed.

Lemma adjust_paces_inv d t v r :
  adjust_paces_from_race d t v = Returns r ->
  (d =? 0) = false /\
  is_finite (floor_div_value (predict_marathon d (t / d)) 60) = true /\
  is_finite (rem_value (predict_marathon d (t / d)) 60) = true /\
  exists time, r = paces_result d (t / d) v time.
Proof.
  intros H. destruct (d =? 0) eqn:Hd.
  - rewrite adjust_paces_zero in H by exact Hd. discriminate.
  - rewrite adjust_paces_nonzero in H by exact Hd.
    destruct (prediction_time _) as [time|] eqn:E; [|discriminate].
    apply prediction_time_returns in E. destruct E as [Hh Hm].
    cbn [bind] in H. inversion H. repeat split; try assumption.
    exists time. reflexivity.
Qed.

(** The clamp [max(25, min(85, x))]. *)
Lemma float_le_not_lt a b e m :
  rank (Prim2SF b) = Some (1, e, Zpos m)%Z ->
  (a <=? b) = true -> (a <? b) = false -> a = b.
Proof.
  intros Hb Hle Hlt.
  rewrite (rank_finite_inj b m e Hb). apply rank_finite_inj.
  apply leb_true in Hle. apply ltb_false in Hlt.
  unfold rank_le, rank_lt in *. rewrite Hb in *.
  destruct (rank (Prim2SF a)) as [[[c1 e1] m1]|]; [|tauto].
  unfold lex_le, lex_lt in *. do 2 f_equal; [f_equal|]; lia.
Qed.

Lemma float_ge_not_gt a b e m :
  rank (Prim2SF b) = Some (1, e, Zpos m)%Z ->
  (b <=? a) = true -> (b <? a) = false -> a = b.
Proof.
  intros Hb Hle Hlt.
  rewrite (rank_finite_inj b m e Hb). apply rank_finite_inj.
  apply leb_true in Hle. apply ltb_false in Hlt.
  unfold rank_le, rank_lt in *. rewrite Hb in *.
  destruct (rank (Prim2SF a)) as [[[c1 e1] m1]|]; [|tauto].
  unfold lex_le, lex_lt in *. do 2 f_equal; [f_equal|]; lia.
Qed.

Lemma clamp_below x : (x <? 25) = true -> py_max 25 (py_min 85 x) = 25.
Proof.
  intros H. unfold py_min.
  assert (E : (x <? 85) = true) by float_order. rewrite E.
  unfold py_max. assert (F : (25 <? x) = false) by float_order.
  rewrite F. reflexivity.
Qed.

Lemma clamp_above x : (85 <? x) = true -> py_max 25 (py_min 85 x) = 85.
Proof.
  intros H. unfold py_min.
  assert (E : (x <? 85) = false) by float_order. rewrite E. reflexivity.
Qed.

Lemma clamp_within x :
  (25 <=? x) = true -> (x <=? 85) = true -> py_max 25 (py_min 85 x) = x.
Proof.
  intros Hlo Hhi. unfold py_min.
  destruct (x <? 85) eqn:E.
  - unfold py_max. destruct (25 <? x) eqn:F; [reflexivity|].
    symmetry. eapply float_ge_not_gt; [|exact Hlo|exact F]. vm_compute. reflexivity.
  - change (py_max 25 85) with 85.
    symmetry. eapply float_le_not_lt; [|exact Hhi|exact E]. vm_compute. reflexivity.
Qed.

(** C1 (as stated, refuted): 18 miles is below the 20-mile threshold, so
    the prediction is inflated by 1.05 and not by 1.02: 220.1 minutes,
    shown as 3:40, where the claim has 213.8 and 3:33. *)
Lemma adjust_paces_18_144_prediction :
  exists r,
    adjust_paces_from_race 18 144 None = Returns r /\
    dict_get "marathon_prediction_minutes" r = Some (VFloat 220.1) /\
    dict_get "marathon_prediction_time" r = Some (VStr "3:40") /\
    220.1 <> 213.8 /\
    "3:40" <> "3:33".
Proof.
  eexists. split; [vm_compute; reflexivity|].
  split; [reflexivity|]. split; [reflexivity|].
  split; [apply float_neq; reflexivity | discriminate].
Qed.

(** C1 (amended): for 18 miles in 144 minutes and no prior score the call
    returns race pace 8.0, fitness score 42.0, easy pace 9.5, tempo pace
    8.3, interval pace 7.5, long-run pace 9.0, the predicted marathon time
    8.0 * 26.2 * 1.05 = 220.1 minutes and the display string "3:40". *)
Theorem adjust_paces_18_144 :
  adjust_paces_from_race 18 144 None =
  Returns
    [ ("status", VStr "success");
      ("vdot", VFloat 42.0);
      ("race_pace_per_mile", VFloat 8.0);
      ("paces",
        VDict
          [ ("easy", VFloat 9.5);
            ("tempo", VFloat 8.3);
            ("interval", VFloat 7.5);
            ("long_run", VFloat 9.0) ]);
      ("marathon_prediction_minutes", VFloat 220.1);
      ("marathon_prediction_time", VStr "3:40");
      ("improvement", VNone) ] /\
  py_round (8.0 * 26.2 * 1.05) 1 = 220.1.
Proof.
  split; vm_compute; reflexivity.
Qed.

(** C4 (as stated, refuted): for 10 miles in 80.1 minutes the clamped
    score is 41.965 (41.97 at two decimals) and the score returned is 42.0;
    and for a tiny distance and a huge time, both positive, the pace
    overflows and the call raises instead of returning. *)
Lemma adjust_paces_score_is_rounded :
  (0 <? 10) = true /\ (0 <? 80.1) = true /\
  (exists r,
     adjust_paces_from_race 10 80.1 None = Returns r /\
     dict_get "vdot" r = Some (VFloat 42.0) /\
     estimate_vdot (80.1 / 10) <> 42.0 /\
     py_round (estimate_vdot (80.1 / 10)) 2 <> 42.0) /\
  (0 <? 1e-300) = true /\ (0 <? 1e300) = true /\
  adjust_paces_from_race 1e-300 1e300 None = Raises ValueError.
Proof.
  split; [reflexivity|]. split; [reflexivity|]. split.
  - eexists. split; [vm_compute; reflexivity|]. split; [reflexivity|].
    split; apply float_neq; vm_compute; reflexivity.
  - split; [reflexivity|]. split; [reflexivity|]. vm_compute. reflexivity.
Qed.

(** C4 (amended): for every positive distance and time whose predicted
    marathon time splits into finite hours and minutes, the call returns;
    the fitness score returned is clamp(35 + (10 - racePace) * 3.5, 25, 85)
    rounded to one decimal, with racePace = time / distance, and the four
    paces returned are racePace + 1.5, + 0.3, - 0.5 and + 1.0, each rounded
    to two decimals. *)
Theorem adjust_paces_score_and_paces (d t : float) (v : option float) :
  let race_pace := t / d in
  let raw := 35 + (10 - race_pace) * 3.5 in
  (0 <? d) = true ->
  (0 <? t) = true ->
  is_finite (floor_div_value (predict_marathon d race_pace) 60) = true ->
  is_finite (rem_value (predict_marathon d race_pace) 60) = true ->
  exists r score,
    adjust_paces_from_race d t v = Returns r /\
    dict_get "vdot" r = Some (VFloat (py_round score 1)) /\
    ((raw <? 25) = true -> score = 25) /\
    ((85 <? raw) = true -> score = 85) /\
    ((25 <=? raw) = true -> (raw <=? 85) = true -> score = raw) /\
    dict_get "race_pace_per_mile" r = Some (VFloat (py_round race_pace 2)) /\
    dict_get "paces" r =
      Some (VDict
        [ ("easy", VFloat (py_round (race_pace + 1.5) 2));
          ("tempo", VFloat (py_round (race_pace + 0.3) 2));
          ("interval", VFloat (py_round (race_pace - 0.5) 2));
          ("long_run", VFloat (py_round (race_pace + 1.0) 2)) ]).
Proof.
  intros race_pace raw Hd Ht Hh Hm.
  assert (Hnz : (d =? 0) = false) by (clear - Hd; float_order).
  destruct (adjust_paces_returns d t v Hnz Hh Hm) as [time E].
  exists (paces_result d race_pace v time), (estimate_vdot race_pace).
  split; [exact E|]. split; [reflexivity|].
  split; [apply clamp_below|]. split; [apply clamp_above|].
  split; [apply clamp_within|]. split; reflexivity.
Qed.

Lemma adjust_paces_score_and_paces_witness :
  (0 <? 18) = true /\ (0 <? 144) = true /\
  exists r score,
    adjust_paces_from_race 18 144 None = Returns r /\
    dict_get "vdot" r = Some (VFloat (py_round score 1)) /\
    score = 35 + (10 - 144 / 18) * 3.5.
Proof.
  split; [reflexivity|]. split; [reflexivity|].
  destruct (adjust_paces_score_and_paces 18 144 None eq_refl eq_refl eq_refl eq_refl)
    as (r & score & E & Hv & _ & _ & Hw & _).
  exists r, score. split; [exact E|]. split; [exact Hv|].
  apply Hw; reflexivity.
Defined.

(** C9 (as stated, refuted): without a prior score the result still has
    the field, holding [None]; and a prior score of 0.0, though supplied,
    gives [None] as well. *)
Lemma adjust_paces_improvement_is_none :
  (exists r,
     adjust_paces_from_race 18 144 None = Returns r /\
     dict_mem "improvement" r = true /\
     dict_get "improvement" r = Some VNone) /\
  (exists r,
     adjust_paces_from_race 18 144 (Some 0) = Returns r /\
     dict_get "improvement" r = Some VNone).
Proof.
  split; eexists; (split; [vm_compute; reflexivity|]); repeat split.
Qed.

(** C9 (amended): whenever the call returns (non-zero distance, predicted
    time with finite hours and minutes), the result has the field
    ["improvement"]: it holds [None] when no prior score is passed, and the
    text "VDOT improved from <prior> to <score, one decimal>" when a
    non-zero prior score is passed. *)
Theorem adjust_paces_improvement (d t : float) :
  (d =? 0) = false ->
  is_finite (floor_div_value (predict_marathon d (t / d)) 60) = true ->
  is_finite (rem_value (predict_marathon d (t / d)) 60) = true ->
  (exists r,
     adjust_paces_from_race d t None = Returns r /\
     dict_get "improvement" r = Some VNone) /\
  (forall prior, (prior =? 0) = false ->
     exists r,
       adjust_paces_from_race d t (Some prior) = Returns r /\
       dict_get "improvement" r =
         Some (VStr ("VDOT improved from " ++ float_repr prior ++ " to "
                     ++ format_1f (estimate_vdot (t / d))))).
Proof.
  intros Hd Hh Hm. split.
  - destruct (adjust_paces_returns d t None Hd Hh Hm) as [time E].
    eexists. split; [exact E|]. reflexivity.
  - intros prior Hp.
    destruct (adjust_paces_returns d t (Some prior) Hd Hh Hm) as [time E].
    eexists. split; [exact E|].
    cbn [paces_result dict_get String.eqb Ascii.eqb Bool.eqb].
    unfold improvement, truthy. rewrite Hp. reflexivity.
Qed.

Lemma adjust_paces_improvement_witness :
  (18 =? 0) = false /\
  (exists r,
     adjust_paces_from_race 18 144 None = Returns r /\
     dict_get "improvement" r = Some VNone) /\
  (exists r,
     adjust_paces_from_race 18 144 (Some 40.5) = Returns r /\
     dict_get "improvement" r = Some (VStr "VDOT improved from 40.5 to 42.0")).
Proof.
  split; [reflexivity|].
  destruct (adjust_paces_improvement 18 144 eq_refl eq_refl eq_refl) as [Hnone Hsome].
  split; [exact Hnone|].
  destruct (Hsome 40.5 eq_refl) as (r & E & Hi).
  exists r. split; [exact E|]. rewrite Hi. vm_compute. reflexivity.
Defined.

End Paces.

(** ** Rounding of a product by 0.8

    [SFmul] shifts the exact product of the mantissas right and rounds it
    to nearest even.  The lemmas below follow that shift on the mantissa
    [m * m08] to bound the result by the float it came from. *)

Section Mul08.

Lemma digits2_size p : digits2_pos p = Pos.size p.
Proof. induction p; simpl; congruence. Qed.

Lemma digits2_bounds p :
  2 ^ (Zpos (digits2_pos p) - 1) <= Zpos p < 2 ^ Zpos (digits2_pos p).
Proof.
  rewrite digits2_size. split.
  - pose proof (Pos.size_le p) as H.
    assert (H' : 2 ^ Zpos (Pos.size p) <= 2 * Zpos p).
    { rewrite <- Pos2Z.inj_pow. change (2 * Zpos p) with (Zpos p~0). exact H. }
    replace (Zpos (Pos.size p)) with (Zpos (Pos.size p) - 1 + 1) in H' by lia.
    rewrite Z.pow_add_r in H' by lia. lia.
  - pose proof (Pos.size_gt p) as H. rewrite <- Pos2Z.inj_pow. exact H.
Qed.

Lemma shr_1_m mrs : 0 <= shr_m mrs -> shr_m (shr_1 mrs) = shr_m mrs / 2.
Proof.
  destruct mrs as [m r s]. simpl. intros H.
  destruct m as [|[p|p|]|p]; cbn [shr_m]; try lia; try reflexivity.
  - apply Z.div_unique with 1; lia.
  - apply Z.div_unique with 0; lia.
Qed.

Lemma shr_1_nonneg mrs : 0 <= shr_m mrs -> 0 <= shr_m (shr_1 mrs).
Proof. intros H. rewrite shr_1_m by exact H. apply Z.div_pos; lia. Qed.

Lemma iter_shr_m p : forall mrs,
  0 <= shr_m mrs ->
  shr_m (iter_pos shr_1 p mrs) = shr_m mrs / 2 ^ Zpos p.
Proof.
  induction p as [p IH|p IH|]; intros mrs H; simpl iter_pos.
  - assert (H1 := shr_1_nonneg mrs H).
    assert (H2 : 0 <= shr_m (iter_pos shr_1 p (shr_1 mrs))).
    { rewrite IH by exact H1. apply Z.div_pos; [exact H1|]. apply Z.pow_pos_nonneg; lia. }
    rewrite IH by exact H2. rewrite IH by exact H1. rewrite shr_1_m by exact H.
    rewrite !Z.div_div by (try apply Z.pow_pos_nonneg; lia).
    f_equal. rewrite <- Z.pow_add_r by lia. rewrite <- Z.pow_succ_r by lia.
    f_equal. lia.
  - assert (H2 : 0 <= shr_m (iter_pos shr_1 p mrs)).
    { rewrite IH by exact H. apply Z.div_pos; [exact H|]. apply Z.pow_pos_nonneg; lia. }
    rewrite IH by exact H2. rewrite IH by exact H.
    rewrite !Z.div_div by (try apply Z.pow_pos_nonneg; lia).
    f_equal. rewrite <- Z.pow_add_r by lia. f_equal. lia.
  - rewrite shr_1_m by exact H. reflexivity.
Qed.

(** The mantissa and exponent after [shr_fexp] on an exact mantissa. *)
Lemma shr_fexp_exact m e :
  0 <= m ->
  let n := fexp prec emax (Zdigits2 m + e) - e in
  shr_m (fst (shr_fexp prec emax m e loc_Exact)) = (if 0 <? n then m / 2 ^ n else m) /\
  snd (shr_fexp prec emax m e loc_Exact) = (if 0 <? n then e + n else e).
Proof.
  intros Hm n. unfold shr_fexp. fold n. unfold shr. simpl shr_record_of_loc.
  destruct n as [|p|p]; simpl; try (split; reflexivity).
  split; [|reflexivity]. apply (iter_shr_m p {| shr_m := m; shr_r := false; shr_s := false |}).
  exact Hm.
Qed.

Lemma rne_bounds q l : q <= round_nearest_even q l <= q + 1.
Proof.
  unfold round_nearest_even. destruct l as [|[| |]]; try lia.
  destruct (Z.even q); lia.
Qed.

Lemma digits2_lt_pow p k : 0 <= k -> Zpos p < 2 ^ k -> Zpos (digits2_pos p) <= k.
Proof.
  intros Hk H. destruct (digits2_bounds p) as [L _].
  assert (2 ^ (Zpos (digits2_pos p) - 1) < 2 ^ k) by lia.
  apply Z.pow_lt_mono_r_iff in H0; lia.
Qed.

Lemma digits2_ge_pow p k : 0 <= k -> 2 ^ k <= Zpos p -> k < Zpos (digits2_pos p).
Proof.
  intros Hk H. destruct (digits2_bounds p) as [_ U].
  assert (2 ^ k < 2 ^ Zpos (digits2_pos p)) by lia.
  apply Z.pow_lt_mono_r_iff in H0; lia.
Qed.

Lemma bra_mul08 m e :
  bounded prec emax m e = true ->
  let R := binary_round_aux prec emax false (Zpos (m * m08)) (e + -53) loc_Exact in
  R = S754_zero false \/
  exists m' e', R = S754_finite false m' e' /\ (e' < e \/ (e' = e /\ Zpos m' <= Zpos m)).
Proof.
  intros Hb R. subst R.
  unfold bounded, canonical_mantissa in Hb. apply andb_true_iff in Hb.
  destruct Hb as [Hc He]. apply Z.eqb_eq in Hc. apply Z.leb_le in He.
  pose proof (digits2_bounds m) as Hd.
  pose proof (digits2_bounds (m * m08)) as HdM.
  set (d := Zpos (digits2_pos m)) in *.
  set (dM := Zpos (digits2_pos (m * m08))) in *.
  assert (Hdpos : 0 < d) by (unfold d; lia).
  assert (H8 : 2 ^ 52 <= Zpos m08 < 2 ^ 53) by (vm_compute; split; congruence).
  assert (HM : Zpos (m * m08) = Zpos m * Zpos m08) by apply Pos2Z.inj_mul.
  assert (Hlow : 2 ^ (d + 51) <= Zpos (m * m08)).
  { rewrite HM. replace (d + 51) with ((d - 1) + 52) by lia.
    rewrite Z.pow_add_r by lia. apply Z.mul_le_mono_nonneg; try lia. }
  assert (Hupp : Zpos (m * m08) < Zpos m * 2 ^ 53).
  { rewrite HM. apply Z.mul_lt_mono_pos_l; lia. }
  assert (Hupp2 : Zpos (m * m08) < 2 ^ (d + 53)).
  { rewrite Z.pow_add_r by lia.
    apply Z.lt_le_trans with (Zpos m * 2 ^ 53); [exact Hupp|].
    apply Z.mul_le_mono_nonneg_r; lia. }
  assert (HdM1 : d + 52 <= dM) by (pose proof (digits2_ge_pow (m * m08) (d + 51)); unfold dM; lia).
  assert (HdM2 : dM <= d + 53) by (pose proof (digits2_lt_pow (m * m08) (d + 53)); unfold dM; lia).
  unfold fexp, SpecFloat.emin in Hc. fold d in Hc.
  change prec with 53 in *. change emax with 1024 in *.
  unfold binary_round_aux.
  pose proof (shr_fexp_exact (Zpos (m * m08)) (e + -53) ltac:(lia)) as S1.
  cbv zeta in S1. change (Zdigits2 (Zpos (m * m08))) with dM in S1.
  unfold fexp, SpecFloat.emin in S1. change prec with 53 in S1. change emax with 1024 in S1.
  destruct (shr_fexp 53 1024 (Zpos (m * m08)) (e + -53) loc_Exact) as [mrs1 e1].
  cbn [fst snd] in S1. destruct S1 as [Sm1 Se1].
  set (m1 := round_nearest_even (shr_m mrs1) (loc_of_shr_record mrs1)).
  pose proof (rne_bounds (shr_m mrs1) (loc_of_shr_record mrs1)) as Hr. fold m1 in Hr.
  set (n1 := Z.max (dM + (e + -53) - 53) (3 - 1024 - 53) - (e + -53)) in *.
  assert (Hn1 : (n1 = 53 /\ e1 = e) \/ (n1 = 52 /\ e1 = e - 1 /\ d = 53 /\ dM = 105 /\ -1074 <= e - 1)).
  { assert (0 < n1) by (unfold n1; lia).
    destruct (0 <? n1) eqn:P; [|apply Z.ltb_ge in P; lia].
    unfold n1 in *. lia. }
  assert (Hpos1 : (0 <? n1) = true) by (apply Z.ltb_lt; lia).
  rewrite Hpos1 in Sm1, Se1.
  assert (Hq0 : 0 <= shr_m mrs1).
  { rewrite Sm1. apply Z.div_pos; [lia|]. apply Z.pow_pos_nonneg; lia. }
  pose proof (shr_fexp_exact m1 e1 ltac:(lia)) as S2.
  cbv zeta in S2. unfold fexp, SpecFloat.emin in S2.
  change prec with 53 in S2. change emax with 1024 in S2.
  destruct (shr_fexp 53 1024 m1 e1 loc_Exact) as [mrs2 e2].
  cbn [fst snd] in S2. destruct S2 as [Sm2 Se2].
  destruct Hn1 as [[Hn He1]|(Hn & He1 & Hd53 & HdM105 & Hemin)].
  - (* shift by 53: the mantissa lands below [m] *)
    assert (Hq : shr_m mrs1 < Zpos m).
    { rewrite Sm1, Hn. apply Z.div_lt_upper_bound; lia. }
    assert (Hm1 : m1 <= Zpos m) by lia.
    assert (Hn2 : Z.max (Zdigits2 m1 + e1 - 53) (3 - 1024 - 53) - e1 <= 0).
    { destruct m1 as [|p|p] eqn:Em1; [simpl; lia| |lia].
      simpl Zdigits2.
      assert (Zpos (digits2_pos p) <= d).
      { apply digits2_lt_pow; lia. }
      lia. }
    destruct (0 <? _) eqn:P in Sm2; [apply Z.ltb_lt in P; lia|].
    rewrite P in Se2. rewrite Sm2.
    destruct m1 as [|p|p]; [left; reflexivity| |lia].
    right. exists p, e2.
    assert (Hle : (e2 <=? 1024 - 53) = true) by (apply Z.leb_le; lia).
    rewrite Hle. split; [reflexivity|]. right. split; lia.
  - (* shift by 52: one exponent below, or rounded up to the next binade *)
    assert (Hq : 2 ^ 52 <= shr_m mrs1 < 2 ^ 53).
    { rewrite Sm1, Hn. split.
      - apply Z.div_le_lower_bound; [lia|]. rewrite <- Z.pow_add_r by lia.
        replace (52 + 52) with (d + 51) by lia. exact Hlow.
      - apply Z.div_lt_upper_bound; [lia|]. rewrite <- Z.pow_add_r by lia.
        pose proof (proj2 HdM) as U. fold dM in U. rewrite HdM105 in U. exact U. }
    destruct m1 as [|p|p] eqn:Em1; [lia| |lia].
    simpl Zdigits2 in *.
    assert (Hp1 : 52 < Zpos (digits2_pos p)) by (apply digits2_ge_pow; lia).
    assert (Hp2 : Zpos (digits2_pos p) <= 54).
    { apply digits2_lt_pow; [lia|]. change (2 ^ 54) with (2 * 2 ^ 53). lia. }
    assert (Hm52 : 2 ^ 52 <= Zpos m).
    { pose proof (proj1 Hd) as L. rewrite Hd53 in L. exact L. }
    destruct (0 <? _) eqn:P in Sm2.
    + rewrite P in Se2. apply Z.ltb_lt in P.
      assert (Hn2 : Z.max (Zpos (digits2_pos p) + e1 - 53) (3 - 1024 - 53) - e1 = 1) by lia.
      rewrite Hn2 in Sm2, Se2.
      assert (Hp54 : Zpos (digits2_pos p) = 54) by lia.
      assert (Hm2 : 2 ^ 52 <= shr_m mrs2 <= 2 ^ 52).
      { rewrite Sm2. change (2 ^ 1) with 2. split.
        - apply Z.div_le_lower_bound; [lia|].
          pose proof (proj1 (digits2_bounds p)) as L. rewrite Hp54 in L.
          change (2 * 2 ^ 52) with (2 ^ (54 - 1)). exact L.
        - apply Z.div_le_upper_bound; [lia|]. change (2 * 2 ^ 52) with (2 ^ 53). lia. }
      destruct (shr_m mrs2) as [|p2|p2]; [lia| |lia].
      right. exists p2, e2.
      assert (Hle : (e2 <=? 1024 - 53) = true) by (apply Z.leb_le; lia).
      rewrite Hle. split; [reflexivity|]. right. split; lia.
    + rewrite P in Se2. rewrite Sm2.
      right. exists p, e2.
      assert (Hle : (e2 <=? 1024 - 53) = true) by (apply Z.leb_le; lia).
      rewrite Hle. split; [reflexivity|]. left. lia.
Qed.
Lemma bra_sign s M E l :
  let R := binary_round_aux prec emax s M E l in
  R = S754_nan \/ R = S754_zero s \/ R = S754_infinity s \/
  exists m e, R = S754_finite s m e.
Proof.
  unfold binary_round_aux.
  destruct (shr_fexp prec emax M E l) as [mrs1 e1].
  destruct (shr_fexp prec emax _ e1 loc_Exact) as [mrs2 e2].
  destruct (shr_m mrs2); [tauto| |tauto].
  destruct (e2 <=? emax - prec); [|tauto].
  right. right. right. eexists. eexists. reflexivity.
Qed.

Lemma Prim2SF_08 : Prim2SF 0.8 = S754_finite false m08 (-53).
Proof. vm_compute. reflexivity. Qed.

(** Scaling by 0.8 never lifts a value above a non-negative bound it was
    under: the product is rounded, and the rounding of something below [x]
    stays at or below [x]. *)
Lemma mul08_bound x t :
  (0 <=? t)%float = true -> (t <? x)%float = false -> (t <? x * 0.8)%float = false.
Proof.
  intros H0 H1. apply leb_true in H0. apply ltb_false in H1. apply ltb_false.
  rewrite mul_spec, Prim2SF_08. pose proof (Prim2SF_valid x) as V.
  change (Prim2SF 0) with (S754_zero false) in H0.
  unfold rank_le, rank_lt in *. cbn [rank] in H0.
  destruct (rank (Prim2SF t)) as [[[ct et] mt]|] eqn:RT; [|tauto].
  unfold SF64mul.
  destruct (Prim2SF x) as [sx|sx| |sx mx ex] eqn:EX; cbn [SFmul].
  - destruct sx; cbn [xorb rank] in *; exact H1.
  - destruct sx; cbn [xorb rank] in *; exact H1.
  - cbn [rank]. tauto.
  - destruct sx; cbn [xorb].
    + destruct (bra_sign true (Zpos (mx * m08)) (ex + -53) loc_Exact)
        as [E|[E|[E|(m' & e' & E)]]]; cbv zeta in E; rewrite E; cbn [rank];
        unfold lex_lt, lex_le in *; lia.
    + cbn [valid_binary] in V.
      destruct (bra_mul08 mx ex V) as [E|(m' & e' & E & Hle)]; cbv zeta in E;
        rewrite E; cbn [rank] in *; unfold lex_lt, lex_le in *; lia.
Qed.

End Mul08.

(** ** [calculate_weekly_mileage_progression] *)

Section Progression.

Import PyFloat TrainingTools PlanSpec.

Local Open Scope string_scope.
Local Open Scope float_scope.

Lemma week_body_spec rate target cur plan k :
  week_body rate target (cur, plan) k =
  (next_mileage rate target cur k,
   (plan ++ [mk_week k (py_round (next_mileage rate target cur k) 1) (week_kind k)])%list).
Proof.
  unfold week_body, next_mileage, week_kind.
  destruct (k mod 4 =? 0)%Z; reflexivity.
Qed.

(** The loop, run for [n] weeks, carries and records what the recurrence
    of the specification says. *)
Lemma run_weeks_nat rate cur target n :
  fold_left (week_body rate target)
    (map (fun i => (1 + Z.of_nat i)%Z) (seq 0 n)) (cur, []) =
  (carried rate cur target n, map (recorded rate cur target) (seq 1 n)).
Proof.
  induction n as [|n IH]; [reflexivity|].
  rewrite seq_S, map_app, fold_left_app, IH. cbn [map fold_left].
  rewrite week_body_spec, (seq_S n 1), map_app. cbn [map Nat.add].
  replace (1 + Z.of_nat n)%Z with (Z.of_nat (S n)) by lia.
  reflexivity.
Qed.

Lemma run_weeks_spec rate cur target weeks :
  run_weeks rate cur target weeks =
  (carried rate cur target (Z.to_nat weeks),
   map (recorded rate cur target) (seq 1 (Z.to_nat weeks))).
Proof.
  unfold run_weeks, py_range.
  replace (weeks + 1 - 1)%Z with weeks by lia. apply run_weeks_nat.
Qed.

Lemma last_item_seq {A : Type} (f : nat -> A) n :
  last_item (map f (seq 1 (S n))) = Returns (f (S n)).
Proof.
  unfold last_item. rewrite (seq_S n 1), map_app, rev_app_distr. reflexivity.
Qed.

Lemma progression_raises cur target weeks level :
  (weeks <= 0)%Z ->
  calculate_weekly_mileage_progression cur target weeks level = Raises IndexError.
Proof.
  intros H. unfold calculate_weekly_mileage_progression.
  rewrite run_weeks_spec. replace (Z.to_nat weeks) with O by lia. reflexivity.
Qed.

(** With at least one week the call returns, and the plan it returns is
    the recorded weeks 1 to [weeks]. *)
Lemma progression_returns cur target weeks level :
  (1 <= weeks)%Z ->
  let rate := rates_get max_increase_rates level 0.10 in
  let plan := map (recorded rate cur target) (seq 1 (Z.to_nat weeks)) in
  exists r,
    calculate_weekly_mileage_progression cur target weeks level = Returns r /\
    dict_get "status" r = Some (VStr "success") /\
    dict_get "weekly_plan" r = Some (VList (map week_value plan)).
Proof.
  intros H rate plan. unfold calculate_weekly_mileage_progression.
  rewrite run_weeks_spec. fold rate. cbn [snd]. fold plan. unfold plan.
  destruct (Z.to_nat weeks) as [|n] eqn:E; [lia|].
  rewrite last_item_seq. cbn [bind]. eexists. split; [reflexivity|].
  split; reflexivity.
Qed.

Lemma progression_status cur target weeks level r :
  calculate_weekly_mileage_progression cur target weeks level = Returns r ->
  dict_get "status" r = Some (VStr "success").
Proof.
  intros H. destruct (Z_le_gt_dec weeks 0) as [L|G].
  - rewrite progression_raises in H by exact L. discriminate.
  - destruct (progression_returns cur target weeks level ltac:(lia)) as (r' & E & S & _).
    congruence.
Qed.

Lemma recorded_nth rate cur target n k :
  (1 <= k <= n)%nat ->
  nth_error (map (recorded rate cur target) (seq 1 n)) (k - 1) =
  Some (recorded rate cur target k).
Proof.
  intros H. rewrite nth_error_map, nth_error_seq.
  destruct (Nat.ltb_spec (k - 1) n) as [_|L]; [|lia].
  cbn [option_map]. do 2 f_equal. lia.
Qed.

(** C5: in every plan returned for [weeks >= 1], the entry of week [k]
    is the dictionary of its number, of the mileage the loop carries after
    it rounded to one decimal, and of its kind; a week whose number is a
    multiple of 4 is a recovery week carrying 0.8 times what the loop
    carried after the week before, and any other week is a build week
    carrying min(previous + min(previous * rate, target - previous),
    target).  The mileage carried after [k] weeks is the loop variable
    [current] after [k] passes, [fst (run_weeks _ _ _ k)]; before the
    first week it is the current mileage. *)
Theorem progression_week_entries (cur target : float) (weeks : Z) (level : string) :
  let rate := rates_get max_increase_rates level 0.10 in
  (1 <= weeks)%Z ->
  exists r plan,
    calculate_weekly_mileage_progression cur target weeks level = Returns r /\
    dict_get "weekly_plan" r = Some (VList plan) /\
    List.length plan = Z.to_nat weeks /\
    fst (run_weeks rate cur target 0) = cur /\
    forall k, (1 <= k <= Z.to_nat weeks)%nat ->
      let previous := fst (run_weeks rate cur target (Z.of_nat k - 1)) in
      let carried_k :=
        if (Z.of_nat k mod 4 =? 0)%Z then previous * 0.8
        else py_min (previous + py_min (previous * rate) (target - previous)) target in
      fst (run_weeks rate cur target (Z.of_nat k)) = carried_k /\
      nth_error plan (k - 1) =
        Some (VDict
                [ ("week", VInt (Z.of_nat k));
                  ("mileage", VFloat (py_round carried_k 1));
                  ("type",
                    VStr (if (Z.of_nat k mod 4 =? 0)%Z then "recovery" else "build")) ]).
Proof.
  intros rate H.
  destruct (progression_returns cur target weeks level H) as (r & E & _ & P).
  fold rate in P.
  exists r, (map week_value (map (recorded rate cur target) (seq 1 (Z.to_nat weeks)))).
  split; [exact E|]. split; [exact P|].
  split; [rewrite !length_map, length_seq; reflexivity|].
  split; [reflexivity|].
  intros k Hk previous carried_k.
  assert (Hp : previous = carried rate cur target (k - 1)).
  { unfold previous. rewrite run_weeks_spec. cbn [fst]. f_equal. lia. }
  assert (Hc : carried rate cur target k = carried_k).
  { destruct k as [|k']; [lia|]. unfold carried_k. rewrite Hp.
    replace (S k' - 1)%nat with k' by lia. reflexivity. }
  split.
  - rewrite run_weeks_spec. cbn [fst]. rewrite Nat2Z.id. exact Hc.
  - rewrite nth_error_map, recorded_nth by exact Hk. cbn [option_map].
    unfold recorded, week_value. cbn [week mileage type]. rewrite Hc. reflexivity.
Qed.

(** The instance of C5 in the specification: from 25 to 50 miles in 12
    weeks at the intermediate rate, weeks 4 and 8 are recovery weeks at 0.8
    times the mileage carried by weeks 3 and 7. *)
Lemma progression_week_entries_witness :
  (1 <= 12)%Z /\
  exists r plan,
    calculate_weekly_mileage_progression 25 50 12 "intermediate" = Returns r /\
    dict_get "weekly_plan" r = Some (VList plan) /\
    fst (run_weeks 0.12 25 50 4) = fst (run_weeks 0.12 25 50 3) * 0.8 /\
    fst (run_weeks 0.12 25 50 8) = fst (run_weeks 0.12 25 50 7) * 0.8 /\
    nth_error plan 3 =
      Some (VDict [ ("week", VInt 4); ("mileage", VFloat 28.1);
                    ("type", VStr "recovery") ]) /\
    nth_error plan 7 =
      Some (VDict [ ("week", VInt 8); ("mileage", VFloat 31.6);
                    ("type", VStr "recovery") ]).
Proof.
  split; [lia|].
  destruct (progression_week_entries 25 50 12 "intermediate" ltac:(lia))
    as (r & plan & E & P & _ & _ & W).
  exists r, plan. split; [exact E|]. split; [exact P|].
  destruct (W 4%nat ltac:(cbn; lia)) as [C4 N4].
  destruct (W 8%nat ltac:(cbn; lia)) as [C8 N8].
  split; [exact C4|]. split; [exact C8|].
  split; [etransitivity; [exact N4|] | etransitivity; [exact N8|]];
    vm_compute; reflexivity.
Defined.

(** The carried mileage never exceeds a non-negative target. *)
Lemma carried_within_target rate cur target k :
  (0 <=? target) = true -> (1 <= k)%nat ->
  (target <? carried rate cur target k) = false.
Proof.
  intros Ht Hk. induction k as [|k IH]; [lia|].
  cbn [carried]. unfold next_mileage.
  destruct (Z.of_nat (S k) mod 4 =? 0)%Z eqn:R.
  - destruct k as [|k']; [discriminate R|].
    apply mul08_bound; [exact Ht|]. apply IH. lia.
  - set (s := carried rate cur target k + py_min _ _).
    unfold py_min. destruct (target <? s) eqn:L; [|exact L].
    clear - Ht. float_order.
Qed.

(** C6 (as stated, refuted): with current and target mileage both 49.96
    the only week carries 49.96, within the target, but the mileage
    recorded for it is 50.0. *)
Lemma progression_recorded_exceeds_target :
  (0 <=? 49.96) = true /\
  exists r,
    calculate_weekly_mileage_progression 49.96 49.96 1 "intermediate" = Returns r /\
    dict_get "weekly_plan" r =
      Some (VList [week_value (mk_week 1 50.0 "build")]) /\
    (49.96 <? 50.0) = true /\
    carried 0.12 49.96 49.96 1 = 49.96.
Proof.
  split; [reflexivity|]. eexists. split; [vm_compute; reflexivity|].
  split; [reflexivity|]. split; vm_compute; reflexivity.
Qed.

(** C6 (amended): for every target mileage >= 0 and [weeks >= 1], whatever
    the current mileage and ability level, the mileage carried after any
    week of the returned plan does not exceed the target; the mileage
    recorded for the week is that value rounded to one decimal. *)
Theorem progression_within_target (cur target : float) (weeks : Z) (level : string) :
  let rate := rates_get max_increase_rates level 0.10 in
  (0 <=? target) = true ->
  (1 <= weeks)%Z ->
  exists r plan,
    calculate_weekly_mileage_progression cur target weeks level = Returns r /\
    dict_get "weekly_plan" r = Some (VList (map week_value plan)) /\
    List.length plan = Z.to_nat weeks /\
    forall k, (1 <= k <= Z.to_nat weeks)%nat ->
      (target <? carried rate cur target k) = false /\
      exists w,
        nth_error plan (k - 1) = Some w /\
        week w = Z.of_nat k /\
        mileage w = py_round (carried rate cur target k) 1.
Proof.
  intros rate Ht H.
  destruct (progression_returns cur target weeks level H) as (r & E & _ & P).
  fold rate in P.
  exists r, (map (recorded rate cur target) (seq 1 (Z.to_nat weeks))).
  split; [exact E|]. split; [exact P|].
  split; [rewrite length_map, length_seq; reflexivity|].
  intros k Hk. split; [apply carried_within_target; [exact Ht|lia]|].
  exists (recorded rate cur target k).
  split; [apply recorded_nth; exact Hk|]. split; reflexivity.
Qed.

Lemma progression_within_target_witness :
  (0 <=? 50) = true /\ (1 <= 12)%Z /\
  exists r plan,
    calculate_weekly_mileage_progression 25 50 12 "intermediate" = Returns r /\
    dict_get "weekly_plan" r = Some (VList (map week_value plan)) /\
    (50 <? carried 0.12 25 50 12) = false /\
    (50 <? carried 0.12 25 50 11) = false.
Proof.
  split; [reflexivity|]. split; [lia|].
  destruct (progression_within_target 25 50 12 "intermediate" eq_refl ltac:(lia))
    as (r & plan & E & P & _ & W).
  exists r, plan. split; [exact E|]. split; [exact P|].
  split; [exact (proj1 (W 12%nat ltac:(cbn; lia)))|exact (proj1 (W 11%nat ltac:(cbn; lia)))].
Defined.

End Progression.

(** ** Arguments out of range *)

Section Validation.

Import PyFloat TrainingTools Results.

Local Open Scope string_scope.
Local Open Scope float_scope.

(** C7 (as stated, refuted): a zero distance and a zero week count make
    the calls raise, and a negative distance is accepted and answered with
    status ["success"]. *)
Lemma invalid_arguments_raise_or_succeed :
  adjust_paces_from_race 0 144 None = Raises ZeroDivisionError /\
  calculate_weekly_mileage_progression 25 50 0 "intermediate" = Raises IndexError /\
  (-18 <=? 0) = true /\
  exists r,
    adjust_paces_from_race (-18) 144 None = Returns r /\
    dict_get "status" r = Some (VStr "success") /\
    dict_get "race_pace_per_mile" r = Some (VFloat (-8.0)).
Proof.
  split; [reflexivity|]. split; [vm_compute; reflexivity|]. split; [reflexivity|].
  eexists. split; [vm_compute; reflexivity|]. split; reflexivity.
Qed.

(** C7 (amended): neither function checks its arguments and neither has an
    error result: whatever either returns has status ["success"].  A
    non-zero distance (negative ones included) whose predicted time has
    finite hours and minutes, and a week count of at least 1, are what the
    caller must supply for the calls to return. *)
Theorem no_invalid_input_result :
  (forall d t v r,
     adjust_paces_from_race d t v = Returns r ->
     dict_get "status" r = Some (VStr "success")) /\
  (forall cur target weeks level r,
     calculate_weekly_mileage_progression cur target weeks level = Returns r ->
     dict_get "status" r = Some (VStr "success")) /\
  (forall d t v,
     (d =? 0) = false ->
     is_finite (floor_div_value (predict_marathon d (t / d)) 60) = true ->
     is_finite (rem_value (predict_marathon d (t / d)) 60) = true ->
     exists r,
       adjust_paces_from_race d t v = Returns r /\
       dict_get "status" r = Some (VStr "success")) /\
  (forall cur target weeks level,
     (1 <= weeks)%Z ->
     exists r,
       calculate_weekly_mileage_progression cur target weeks level = Returns r /\
       dict_get "status" r = Some (VStr "success")).
Proof.
  split; [|split; [|split]].
  - intros d t v r H. apply adjust_paces_inv in H.
    destruct H as (_ & _ & _ & time & ->). reflexivity.
  - intros cur target weeks level r H. eapply progression_status. exact H.
  - intros d t v Hd Hh Hm.
    destruct (adjust_paces_returns d t v Hd Hh Hm) as [time E].
    eexists. split; [exact E|reflexivity].
  - intros cur target weeks level H.
    destruct (progression_returns cur target weeks level H) as (r & E & S & _).
    exists r. split; assumption.
Qed.

Lemma no_invalid_input_result_witness :
  (exists r,
     adjust_paces_from_race (-18) 144 None = Returns r /\
     dict_get "status" r = Some (VStr "success")) /\
  (exists r,
     calculate_weekly_mileage_progression 25 50 1 "beginner" = Returns r /\
     dict_get "status" r = Some (VStr "success")).
Proof.
  destruct no_invalid_input_result as (_ & _ & Hp & Hw). split.
  - apply (Hp (-18) 144 None); reflexivity.
  - apply (Hw 25 50 1%Z "beginner"). lia.
Defined.

End Validation.

(** ** [get_corrective_exercises] *)

Section Exercises.

Import TrainingTools Results.

Local Open Scope string_scope.

Lemma library_get_none injury_type lib :
  ~ In injury_type (map fst lib) -> library_get injury_type lib = None.
Proof.
  induction lib as [|[k p] lib IH]; intros H; [reflexivity|].
  cbn [library_get]. destruct (String.eqb_spec injury_type k) as [->|N].
  - exfalso. apply H. left. reflexivity.
  - apply IH. intros I. apply H. right. exact I.
Qed.

(** C8: for an injury type that is not a key of the loaded catalog the
    answer is an error that names the type and lists exactly the keys of
    the catalog, in the catalog's order; when the catalog cannot be read
    or parsed the answer is an error with no list of types, whose message
    also differs, so the two cases can be told apart. *)
Theorem unknown_injury_type_lists_keys
    (lib : list (string * dict)) (injury_type : string) :
  ~ In injury_type (map fst lib) ->
  get_corrective_exercises (Loaded lib) injury_type = not_found lib injury_type /\
  dict_get "status" (not_found lib injury_type) = Some (VStr "error") /\
  dict_get "available_types" (not_found lib injury_type) =
    Some (VList (map VStr (map fst lib))) /\
  forall failure,
    (failure = FileNotFound \/ exists message, failure = LoadFailed message) ->
    let r := get_corrective_exercises failure injury_type in
    dict_get "status" r = Some (VStr "error") /\
    dict_get "available_types" r = None /\
    dict_get "error_message" r <> dict_get "error_message" (not_found lib injury_type) /\
    r <> not_found lib injury_type.
Proof.
  intros H. split.
  { unfold get_corrective_exercises. rewrite library_get_none by exact H. reflexivity. }
  split; [reflexivity|]. split; [reflexivity|].
  intros failure [->|[message ->]]; cbv zeta; cbn [get_corrective_exercises].
  - repeat split; try discriminate.
  - repeat split; try discriminate.
Qed.

Lemma unknown_injury_type_lists_keys_witness :
  let lib :=
    [ ("IT_band", [("injury_name", VStr "IT Band Syndrome")]);
      ("plantar_fasciitis", [("injury_name", VStr "Plantar Fasciitis")]);
      ("achilles_tendonitis", [("injury_name", VStr "Achilles Tendonitis")]);
      ("shin_splints", [("injury_name", VStr "Shin Splints")]);
      ("runners_knee", [("injury_name", VStr "Runner's Knee")]) ] in
  ~ In "nonexistent_injury" (map fst lib) /\
  dict_get "available_types"
    (get_corrective_exercises (Loaded lib) "nonexistent_injury") =
  Some (VList [ VStr "IT_band"; VStr "plantar_fasciitis"; VStr "achilles_tendonitis";
                VStr "shin_splints"; VStr "runners_knee" ]).
Proof.
  cbv zeta.
  assert (N : ~ In "nonexistent_injury"
                (map fst
                   [ ("IT_band", [("injury_name", VStr "IT Band Syndrome")]);
                     ("plantar_fasciitis", [("injury_name", VStr "Plantar Fasciitis")]);
                     ("achilles_tendonitis", [("injury_name", VStr "Achilles Tendonitis")]);
                     ("shin_splints", [("injury_name", VStr "Shin Splints")]);
                     ("runners_knee", [("injury_name", VStr "Runner's Knee")]) ])).
  { cbn. intros [E|[E|[E|[E|[E|[]]]]]]; discriminate E. }
  split; [exact N|].
  destruct (unknown_injury_type_lists_keys _ _ N) as (E & _ & A & _).
  rewrite E. exact A.
Defined.

End Exercises.

(** * Further properties of the tools *)

(** ** [calculate_acwr] on any input *)

Section AcwrTotal.

Import PyFloat TrainingTools Results.

Local Open Scope string_scope.
Local Open Scope float_scope.

(** X1: [calculate_acwr] returns on every pair of lists, whatever their
    lengths; the status is ["error"] exactly when the 28-day average is
    zero, which is also exactly when the risk level is INSUFFICIENT_DATA,
    and the risk level is always one of the five labels. *)
Theorem acwr_always_returns (last7 last28 : list float) :
  exists r status risk,
    calculate_acwr last7 last28 = Returns r /\
    dict_get "status" r = Some (VStr status) /\
    dict_get "risk_level" r = Some (VStr risk) /\
    (status = "error" \/ status = "success") /\
    (status = "error" <-> (py_sum last28 / 28 =? 0) = true) /\
    (risk = "INSUFFICIENT_DATA" <-> status = "error") /\
    In risk ["HIGH"; "ELEVATED"; "UNDERTRAINING"; "SAFE"; "INSUFFICIENT_DATA"].
Proof.
  rewrite acwr_unfold. cbv zeta.
  destruct (py_sum last28 / 28 =? 0) eqn:E.
  - eexists. exists "error", "INSUFFICIENT_DATA".
    split; [reflexivity|]. split; [reflexivity|]. split; [reflexivity|].
    split; [left; reflexivity|]. split; [tauto|]. split; [tauto|].
    cbn. tauto.
  - set (ratio := py_sum last7 / 7 / (py_sum last28 / 28)).
    eexists. exists "success", (fst (classify_risk ratio)).
    split; [reflexivity|]. split; [reflexivity|]. split; [reflexivity|].
    split; [right; reflexivity|].
    split; [split; intros H; discriminate H|].
    assert (L : In (fst (classify_risk ratio))
                  ["HIGH"; "ELEVATED"; "UNDERTRAINING"; "SAFE"]).
    { unfold classify_risk.
      destruct (1.5 <? ratio); [|destruct (1.3 <? ratio); [|destruct (ratio <? 0.8)]];
        cbn; tauto. }
    split.
    + split; [|intros H; discriminate H].
      intros H. rewrite H in L. cbn in L.
      destruct L as [L|[L|[L|[L|[]]]]]; discriminate L.
    + cbn in L. cbn. tauto.
Qed.

End AcwrTotal.

(** ** More on [adjust_paces_from_race] *)

Section MorePaces.

Import PyFloat TrainingTools Results.

Local Open Scope string_scope.
Local Open Scope float_scope.

(** X2: a prior score that is zero counts as no prior score: the call
    behaves exactly as if it had not been passed. *)
Theorem adjust_paces_zero_prior (d t prior : float) :
  (prior =? 0) = true ->
  adjust_paces_from_race d t (Some prior) = adjust_paces_from_race d t None.
Proof.
  intros H. unfold adjust_paces_from_race, improvement, truthy.
  rewrite H. reflexivity.
Qed.

Lemma adjust_paces_zero_prior_witness :
  (-0 =? 0) = true /\
  adjust_paces_from_race 18 144 (Some (-0)) = adjust_paces_from_race 18 144 None.
Proof.
  split; [reflexivity|]. apply adjust_paces_zero_prior. reflexivity.
Defined.

Lemma estimate_vdot_bounds pace :
  (25 <=? estimate_vdot pace) = true /\ (estimate_vdot pace <=? 85) = true.
Proof.
  unfold estimate_vdot, py_max, py_min.
  set (raw := 35 + (10 - pace) * 3.5). clearbody raw.
  destruct (raw <? 85) eqn:A.
  - destruct (25 <? raw) eqn:B; split; float_order.
  - change (25 <? 85) with true. cbv iota. split; reflexivity.
Qed.

Lemma round_half_even_bounds n d :
  (0 < d)%Z ->
  (n / d <= round_half_even n d <= n / d + 1)%Z /\
  ((n mod d = 0)%Z -> round_half_even n d = (n / d)%Z).
Proof.
  intros Hd. unfold round_half_even. split.
  - destruct (2 * (n mod d) ?= d)%Z; try lia. destruct (Z.even (n / d)); lia.
  - intros H. rewrite H. destruct (Z.compare_spec (2 * 0) d); lia.
Qed.

(** Each of the 601 tenths from 25.0 to 85.0 is read as a double between
    25 and 85. *)
Lemma tenths_in_range k :
  (250 <= Zpos k <= 850)%Z -> tenth_in_range k = true.
Proof.
  intros H.
  assert (F : forallb tenth_in_range
                (map (fun i => Pos.of_nat (250 + i)) (seq 0 601)) = true)
    by (vm_compute; reflexivity).
  rewrite forallb_forall in F. apply F.
  apply in_map_iff. exists (Pos.to_nat k - 250)%nat. split; [lia|].
  apply in_seq. lia.
Qed.

(** Rounding to one decimal keeps a float of [[25, 85]] in [[25, 85]]. *)
Lemma py_round_1_between x :
  (25 <=? x) = true -> (x <=? 85) = true ->
  (25 <=? py_round x 1) = true /\ (py_round x 1 <=? 85) = true.
Proof.
  intros Hlo Hhi. pose proof (Prim2SF_valid x) as V.
  apply leb_true in Hlo. apply leb_true in Hhi.
  unfold rank_le in *.
  change (rank (Prim2SF 25)) with (Some (1, -48, 7036874417766400)%Z) in *.
  change (rank (Prim2SF 85)) with (Some (1, -46, 5981343255101440)%Z) in *.
  unfold py_round.
  destruct (Prim2SF x) as [s|s| |s m e]; try (destruct s); cbn [rank] in *;
    unfold lex_le in *; try lia; try tauto.
  cbn [valid_binary] in V. unfold bounded, canonical_mantissa in V.
  apply andb_true_iff in V. destruct V as [Vc _]. apply Z.eqb_eq in Vc.
  unfold fexp, SpecFloat.emin in Vc.
  change prec with 53%Z in Vc. change emax with 1024%Z in Vc.
  pose proof (digits2_bounds m) as Hd.
  assert (D : Zpos (digits2_pos m) = 53%Z) by lia. rewrite D in Hd.
  change (2 ^ (53 - 1))%Z with 4503599627370496%Z in Hd.
  change (2 ^ 53)%Z with 9007199254740992%Z in Hd.
  change (10 ^ Z.of_nat 1)%Z with 10%Z.
  assert (He : (e = -48 \/ e = -47 \/ e = -46)%Z) by lia.
  unfold scaled.
  assert (N : (250 <= round_half_even (Zpos m * 10) (2 ^ (- e)) <= 850)%Z).
  { destruct He as [ -> | [ -> | -> ] ]; cbn [Z.opp];
      [change (2 ^ 48)%Z with 281474976710656%Z
      |change (2 ^ 47)%Z with 140737488355328%Z
      |change (2 ^ 46)%Z with 70368744177664%Z];
      match goal with |- context [round_half_even ?n ?d] =>
        destruct (round_half_even_bounds n d ltac:(lia)) as [B Hz];
        revert B Hz; generalize (round_half_even n d) end;
      intros r B Hz; Z.div_mod_to_equations; lia. }
  replace (0 <=? e)%Z with false by (symmetry; apply Z.leb_gt; lia).
  destruct (round_half_even (Zpos m * 10) (2 ^ (- e))) as [|k|k]; try lia.
  pose proof (tenths_in_range k N) as T. unfold tenth_in_range in T.
  apply andb_true_iff in T. exact T.
Qed.

(** X3: the fitness score of every result lies between 25 and 85, for
    whatever distance, time and prior score the call returned on. *)
Theorem adjust_paces_score_in_range (d t : float) (v : option float) (r : dict) :
  adjust_paces_from_race d t v = Returns r ->
  exists score,
    dict_get "vdot" r = Some (VFloat score) /\
    (25 <=? score) = true /\ (score <=? 85) = true.
Proof.
  intros H. apply adjust_paces_inv in H. destruct H as (_ & _ & _ & time & ->).
  exists (py_round (estimate_vdot (t / d)) 1). split; [reflexivity|].
  destruct (estimate_vdot_bounds (t / d)) as [L U].
  apply py_round_1_between; assumption.
Qed.

Lemma adjust_paces_score_in_range_witness :
  exists r score,
    adjust_paces_from_race 3.1 15 None = Returns r /\
    dict_get "vdot" r = Some (VFloat score) /\
    (25 <=? score) = true /\ (score <=? 85) = true.
Proof.
  assert (E : exists r, adjust_paces_from_race 3.1 15 None = Returns r).
  { eexists. vm_compute. reflexivity. }
  destruct E as [r E].
  destruct (adjust_paces_score_in_range 3.1 15 None r E) as (score & S & B).
  exists r, score. split; [exact E|]. split; [exact S|exact B].
Defined.

(** X4: the predicted marathon time of a result is the race pace times
    26.2 times a factor chosen by the race distance alone, rounded to one
    decimal: 1.02 from 20 miles, 1.05 from 13 miles up to 20, and 1.08
    below 13 miles (negative distances included). *)
Theorem adjust_paces_prediction_factor (d t : float) (v : option float) (r : dict) :
  adjust_paces_from_race d t v = Returns r ->
  exists factor,
    dict_get "marathon_prediction_minutes" r =
      Some (VFloat (py_round (t / d * 26.2 * factor) 1)) /\
    ((20 <=? d) = true -> factor = 1.02) /\
    ((13 <=? d) = true -> (d <? 20) = true -> factor = 1.05) /\
    ((d <? 13) = true -> factor = 1.08).
Proof.
  intros H. apply adjust_paces_inv in H. destruct H as (_ & _ & _ & time & ->).
  cbn [paces_result dict_get String.eqb Ascii.eqb Bool.eqb]. unfold predict_marathon.
  destruct (20 <=? d) eqn:A; [|destruct (13 <=? d) eqn:B].
  - exists 1.02. split; [reflexivity|]. split; [reflexivity|].
    split; intros; exfalso; float_order.
  - exists 1.05. split; [reflexivity|]. split; [discriminate|].
    split; [reflexivity|]. intros; exfalso; float_order.
  - exists 1.08. split; [reflexivity|]. split; [discriminate|].
    split; [discriminate|reflexivity].
Qed.

Lemma adjust_paces_prediction_factor_witness :
  exists r,
    adjust_paces_from_race 13.1 105 None = Returns r /\
    dict_get "marathon_prediction_minutes" r =
      Some (VFloat (py_round (105 / 13.1 * 26.2 * 1.05) 1)).
Proof.
  assert (E : exists r, adjust_paces_from_race 13.1 105 None = Returns r).
  { eexists. vm_compute. reflexivity. }
  destruct E as [r E]. exists r. split; [exact E|].
  destruct (adjust_paces_prediction_factor 13.1 105 None r E) as (f & P & _ & F & _).
  rewrite P. rewrite (F eq_refl eq_refl). reflexivity.
Defined.

End MorePaces.

(** ** More on [calculate_weekly_mileage_progression] *)

Section MoreProgression.

Import PyFloat TrainingTools PlanSpec.

Local Open Scope string_scope.
Local Open Scope float_scope.

Lemma rates_get_default level :
  ~ In level ["beginner"; "intermediate"; "advanced"; "elite"] ->
  rates_get max_increase_rates level 0.10 = 0.10.
Proof.
  intros H. cbn [rates_get max_increase_rates].
  repeat match goal with
  | |- context [String.eqb level ?k] =>
      destruct (String.eqb_spec level k) as [->|_]; [exfalso; apply H; cbn; tauto|]
  end.
  reflexivity.
Qed.

Lemma rates_get_cases level :
  let rate := rates_get max_increase_rates level 0.10 in
  (level = "beginner" /\ rate = 0.10) \/
  (level = "intermediate" /\ rate = 0.12) \/
  (level = "advanced" /\ rate = 0.15) \/
  (level = "elite" /\ rate = 0.18) \/
  (~ In level ["beginner"; "intermediate"; "advanced"; "elite"] /\ rate = 0.10).
Proof.
  cbn [rates_get max_increase_rates].
  destruct (String.eqb_spec level "beginner") as [->|A]; [tauto|].
  destruct (String.eqb_spec level "intermediate") as [->|B]; [tauto|].
  destruct (String.eqb_spec level "advanced") as [->|C]; [tauto|].
  destruct (String.eqb_spec level "elite") as [->|D]; [tauto|].
  right. right. right. right. split; [|reflexivity].
  cbn. intros [E|[E|[E|[E|[]]]]]; congruence.
Qed.

(** X5: an ability level that is none of the four known ones is planned
    exactly as a beginner, whatever the other arguments (the default
    level of the signature, "intermediate", plays no part there). *)
Theorem progression_unknown_level_is_beginner
    (cur target : float) (weeks : Z) (level : string) :
  ~ In level ["beginner"; "intermediate"; "advanced"; "elite"] ->
  calculate_weekly_mileage_progression cur target weeks level =
  calculate_weekly_mileage_progression cur target weeks "beginner".
Proof.
  intros H. unfold calculate_weekly_mileage_progression.
  rewrite (rates_get_default level H). reflexivity.
Qed.

Lemma progression_unknown_level_is_beginner_witness :
  calculate_weekly_mileage_progression 25 50 12 "Elite" =
  calculate_weekly_mileage_progression 25 50 12 "beginner".
Proof.
  apply progression_unknown_level_is_beginner.
  cbn. intros [E|[E|[E|[E|[]]]]]; discriminate E.
Defined.

(** X6: the label of the weekly increase is one of four percentages
    written with one decimal, 10.0%, 12.0%, 15.0% or 18.0%: multiplying
    the rate by 100 leaves no binary residue in any of them. *)
Theorem progression_rate_label (cur target : float) (weeks : Z) (level : string) :
  (1 <= weeks)%Z ->
  exists r label,
    calculate_weekly_mileage_progression cur target weeks level = Returns r /\
    dict_get "max_weekly_increase" r = Some (VStr label) /\
    (level = "beginner" -> label = "10.0%") /\
    (level = "intermediate" -> label = "12.0%") /\
    (level = "advanced" -> label = "15.0%") /\
    (level = "elite" -> label = "18.0%") /\
    (~ In level ["beginner"; "intermediate"; "advanced"; "elite"] -> label = "10.0%").
Proof.
  intros H. unfold calculate_weekly_mileage_progression.
  rewrite run_weeks_spec. cbn [snd].
  destruct (Z.to_nat weeks) as [|n] eqn:E; [lia|].
  rewrite last_item_seq. cbn [bind].
  eexists.
  exists (float_repr (rates_get max_increase_rates level 0.10 * 100) ++ "%").
  split; [reflexivity|]. split; [reflexivity|].
  assert (L10 : float_repr (0.10 * 100) ++ "%" = "10.0%") by (vm_compute; reflexivity).
  assert (L12 : float_repr (0.12 * 100) ++ "%" = "12.0%") by (vm_compute; reflexivity).
  assert (L15 : float_repr (0.15 * 100) ++ "%" = "15.0%") by (vm_compute; reflexivity).
  assert (L18 : float_repr (0.18 * 100) ++ "%" = "18.0%") by (vm_compute; reflexivity).
  destruct (rates_get_cases level) as [[A B]|[[A B]|[[A B]|[[A B]|[A B]]]]];
    cbv zeta in B; rewrite B; clear B;
    rewrite ?L10, ?L12, ?L15, ?L18; clear L10 L12 L15 L18;
    try subst level;
    repeat (split;
      [first [ intros _; reflexivity
             | intros C; discriminate C
             | intros C; exfalso; apply C; cbn; tauto
             | intros C; exfalso; apply A; rewrite C; cbn; tauto ]|]);
    first [ intros _; reflexivity
          | intros C; exfalso; apply C; cbn; tauto ].
Qed.

Lemma progression_rate_label_witness :
  exists r,
    calculate_weekly_mileage_progression 25 50 12 "advanced" = Returns r /\
    dict_get "max_weekly_increase" r = Some (VStr "15.0%").
Proof.
  destruct (progression_rate_label 25 50 12 "advanced" ltac:(lia))
    as (r & label & E & L & _ & _ & A & _).
  exists r. split; [exact E|]. rewrite L, (A eq_refl). reflexivity.
Defined.

(** X7: the summary of a plan of at least one week is drawn from its last
    week alone: the plan has one entry per week, the target is achievable
    exactly when 0.9 times the target is at most the last recorded (rounded)
    mileage, and the recommendation is "Safe progression" exactly then. *)
Theorem progression_summary (cur target : float) (weeks : Z) (level : string) :
  (1 <= weeks)%Z ->
  let rate := rates_get max_increase_rates level 0.10 in
  let final := mileage (recorded rate cur target (Z.to_nat weeks)) in
  exists r plan recommendation,
    calculate_weekly_mileage_progression cur target weeks level = Returns r /\
    dict_get "weekly_plan" r = Some (VList plan) /\
    Z.of_nat (List.length plan) = weeks /\
    dict_get "final_mileage" r = Some (VFloat (py_round final 1)) /\
    dict_get "target_mileage" r = Some (VFloat target) /\
    dict_get "is_achievable" r = Some (VBool (target * 0.9 <=? final)) /\
    dict_get "recommendation" r = Some (VStr recommendation) /\
    (recommendation = "Safe progression" <-> (target * 0.9 <=? final) = true).
Proof.
  intros H rate final. unfold calculate_weekly_mileage_progression.
  rewrite run_weeks_spec. fold rate. cbn [snd].
  assert (L : Z.of_nat (List.length
                (map week_value (map (recorded rate cur target)
                   (seq 1 (Z.to_nat weeks))))) = weeks).
  { rewrite !length_map, length_seq. lia. }
  revert L. unfold final.
  destruct (Z.to_nat weeks) as [|n] eqn:E; [lia|]. intros L.
  rewrite last_item_seq. cbn [bind].
  eexists. eexists. eexists. split; [reflexivity|].
  split; [reflexivity|]. split; [exact L|].
  split; [reflexivity|]. split; [reflexivity|]. split; [reflexivity|].
  split; [reflexivity|].
  destruct (target * 0.9 <=? mileage (recorded rate cur target (S n))).
  - split; reflexivity.
  - split; intros A; discriminate A.
Qed.

Lemma progression_summary_witness :
  exists r,
    calculate_weekly_mileage_progression 25 50 12 "intermediate" = Returns r /\
    dict_get "is_achievable" r = Some (VBool false) /\
    dict_get "final_mileage" r = Some (VFloat 35.5).
Proof.
  destruct (progression_summary 25 50 12 "intermediate" ltac:(lia))
    as (r & plan & rec & E & _ & _ & F & _ & A & _).
  exists r. split; [exact E|]. split.
  - rewrite A. vm_compute. reflexivity.
  - rewrite F. vm_compute. reflexivity.
Defined.

Lemma bra_exact_not_nan s (M : positive) E :
  binary_round_aux prec emax s (Zpos M) E loc_Exact <> S754_nan.
Proof.
  unfold binary_round_aux.
  pose proof (shr_fexp_exact (Zpos M) E ltac:(lia)) as H1. cbv zeta in H1.
  destruct (shr_fexp prec emax (Zpos M) E loc_Exact) as [mrs1 e1].
  cbn [fst snd] in H1. destruct H1 as [H1 _].
  assert (P1 : (0 <= shr_m mrs1)%Z).
  { rewrite H1. destruct (0 <? _)%Z eqn:Q; [|lia].
    apply Z.ltb_lt in Q. apply Z.div_pos; [lia|apply Z.pow_pos_nonneg; lia]. }
  clear H1.
  pose proof (rne_bounds (shr_m mrs1) (loc_of_shr_record mrs1)) as B.
  set (m1 := round_nearest_even (shr_m mrs1) (loc_of_shr_record mrs1)) in *.
  pose proof (shr_fexp_exact m1 e1 ltac:(lia)) as H2. cbv zeta in H2.
  destruct (shr_fexp prec emax m1 e1 loc_Exact) as [mrs2 e2].
  cbn [fst snd] in H2. destruct H2 as [H2 _].
  assert (P2 : (0 <= shr_m mrs2)%Z).
  { rewrite H2. destruct (0 <? _)%Z eqn:Q; [|lia].
    apply Z.ltb_lt in Q. apply Z.div_pos; [lia|apply Z.pow_pos_nonneg; lia]. }
  destruct (shr_m mrs2); [discriminate| |lia].
  destruct (_ <=? _)%Z; discriminate.
Qed.

(** A non-negative mileage that already equals the target is kept by a
    build step whose rate is a positive finite number. *)
Lemma hold_at_target t rate mr er :
  Prim2SF rate = S754_finite false mr er ->
  (0 <=? t) = true ->
  py_min (t + py_min (t * rate) (t - t)) t = t.
Proof.
  intros Hr H0.
  assert (E : t + py_min (t * rate) (t - t) = t).
  { apply Prim2SF_inj. rewrite add_spec. unfold py_min.
    pose proof (mul_spec t rate) as Hm. rewrite Hr in Hm.
    pose proof (sub_spec t t) as Hs.
    pose proof (ltb_spec (t - t) (t * rate)) as L.
    rewrite leb_spec in H0. change (Prim2SF 0) with (S754_zero false) in H0.
    destruct (Prim2SF t) as [s|s| |s m e].
    - (* zeros *)
      assert (Hs' : Prim2SF (t - t) = S754_zero false) by (rewrite Hs; destruct s; reflexivity).
      assert (Hm' : Prim2SF (t * rate) = S754_zero s) by (rewrite Hm; destruct s; reflexivity).
      rewrite Hs', Hm' in L. cbn in L. rewrite L, Hm'. destruct s; reflexivity.
    - destruct s; [discriminate H0|].
      assert (Hs' : Prim2SF (t - t) = S754_nan) by (rewrite Hs; reflexivity).
      assert (Hm' : Prim2SF (t * rate) = S754_infinity false) by (rewrite Hm; reflexivity).
      rewrite Hs', Hm' in L. cbn in L. rewrite L, Hm'. reflexivity.
    - discriminate H0.
    - destruct s; [discriminate H0|].
      assert (Hs' : Prim2SF (t - t) = S754_zero false).
      { rewrite Hs. unfold SF64sub, SFsub. cbv zeta. cbn [cond_Zopp].
        rewrite Z.sub_diag. reflexivity. }
      assert (Hm' : Prim2SF (t * rate) =
                    binary_round_aux prec emax false (Zpos (m * mr)) (e + er) loc_Exact)
        by (rewrite Hm; reflexivity).
      pose proof (bra_exact_not_nan false (m * mr) (e + er)) as NN.
      destruct (bra_sign false (Zpos (m * mr)) (e + er) loc_Exact)
        as [B|[B|[B|(m' & e' & B)]]]; cbv zeta in B; rewrite B in *.
      + congruence.
      + rewrite Hs', Hm' in L. cbn in L. rewrite L, Hm'. reflexivity.
      + rewrite Hs', Hm' in L. cbn in L. rewrite L, Hs'. reflexivity.
      + rewrite Hs', Hm' in L. cbn in L. rewrite L, Hs'. reflexivity. }
  rewrite E. unfold py_min. destruct (t <? t); reflexivity.
Qed.

Lemma rates_positive level :
  exists mr er,
    Prim2SF (rates_get max_increase_rates level 0.10) = S754_finite false mr er.
Proof.
  destruct (rates_get_cases level) as [[_ ->]|[[_ ->]|[[_ ->]|[[_ ->]|[_ ->]]]]];
    eexists; eexists; vm_compute; reflexivity.
Qed.

(** X8: once the mileage carried by the loop equals a non-negative target,
    a build week keeps it there, at every ability level: the plan does not
    drift off a target it has reached until the next recovery week. *)
Theorem build_week_holds_target
    (cur target : float) (level : string) (k : nat) :
  let rate := rates_get max_increase_rates level 0.10 in
  (0 <=? target) = true ->
  (Z.of_nat (S k) mod 4 =? 0)%Z = false ->
  carried rate cur target k = target ->
  carried rate cur target (S k) = target.
Proof.
  intros rate H0 Hb Hc. cbn [carried]. rewrite Hc. unfold next_mileage.
  rewrite Hb. destruct (rates_positive level) as (mr & er & Hr).
  apply (hold_at_target target rate mr er Hr H0).
Qed.

Lemma build_week_holds_target_witness :
  carried (rates_get max_increase_rates "elite" 0.10) 48 50 1 = 50 /\
  carried (rates_get max_increase_rates "elite" 0.10) 48 50 2 = 50.
Proof.
  assert (C : carried (rates_get max_increase_rates "elite" 0.10) 48 50 1 = 50)
    by (vm_compute; reflexivity).
  split; [exact C|].
  apply (build_week_holds_target 48 50 "elite" 1); [reflexivity|reflexivity|exact C].
Defined.

(** X9: a recovery week never raises a non-negative carried mileage: the
    product by 0.8, rounded to a double, is not above what it started
    from. *)
Theorem recovery_week_does_not_increase
    (rate cur target : float) (k : nat) :
  (Z.of_nat (S k) mod 4 =? 0)%Z = true ->
  (0 <=? carried rate cur target k) = true ->
  (carried rate cur target k <? carried rate cur target (S k)) = false.
Proof.
  intros Hr H0. cbn [carried]. unfold next_mileage. rewrite Hr.
  apply mul08_bound; [exact H0|].
  apply ltb_false. unfold rank_lt.
  destruct (rank (Prim2SF (carried rate cur target k))) as [[[a b] c]|]; [|tauto].
  unfold lex_lt. lia.
Qed.

Lemma recovery_week_does_not_increase_witness :
  (carried 0.12 25 50 3 <? carried 0.12 25 50 4) = false.
Proof.
  apply recovery_week_does_not_increase; vm_compute; reflexivity.
Defined.

End MoreProgression.

(** ** More on [get_corrective_exercises] *)

Section MoreExercises.

Import TrainingTools Results.

Local Open Scope string_scope.

Lemma dict_get_set k k' v (d : dict) :
  dict_get k (dict_set k' v d) = if String.eqb k k' then Some v else dict_get k d.
Proof.
  induction d as [|[k0 v0] d IH]; cbn [dict_set dict_get].
  - reflexivity.
  - destruct (String.eqb_spec k' k0) as [->|N]; cbn [dict_get].
    + destruct (String.eqb k k0); reflexivity.
    + rewrite IH. destruct (String.eqb_spec k k0) as [->|N'].
      * destruct (String.eqb_spec k0 k'); [congruence|reflexivity].
      * reflexivity.
Qed.

Lemma dict_get_app k (a b : dict) :
  dict_get k (a ++ b)%list =
  match dict_get k a with Some v => Some v | None => dict_get k b end.
Proof.
  induction a as [|[k0 v0] a IH]; cbn [app dict_get]; [reflexivity|].
  destruct (String.eqb k k0); [reflexivity|exact IH].
Qed.

(** In [{**a, **b}] the last binding of a key in [b] wins, and the keys
    [b] does not have keep their value of [a]. *)
Lemma dict_get_update k (b : dict) : forall a : dict,
  dict_get k (dict_update a b) =
  match dict_get k (rev b) with Some v => Some v | None => dict_get k a end.
Proof.
  unfold dict_update.
  induction b as [|[k0 v0] b IH]; intros a; cbn [fold_left rev fst snd].
  - reflexivity.
  - rewrite IH, dict_get_app, dict_get_set. cbn [dict_get].
    destruct (dict_get k (rev b)); [reflexivity|].
    destruct (String.eqb k k0); reflexivity.
Qed.

Lemma dict_get_none_iff k (d : dict) : dict_get k d = None <-> ~ In k (map fst d).
Proof.
  induction d as [|[k0 v0] d IH]; cbn [dict_get map fst In]; [tauto|].
  destruct (String.eqb_spec k k0) as [->|N].
  - split; [discriminate|tauto].
  - rewrite IH. split; [|tauto]. intros H [E|E]; [congruence|tauto].
Qed.

Lemma dict_get_rev k (d : dict) :
  NoDup (map fst d) -> dict_get k (rev d) = dict_get k d.
Proof.
  induction d as [|[k0 v0] d IH]; intros ND; [reflexivity|].
  cbn [map fst] in ND. inversion ND as [|? ? Hn ND']; subst.
  cbn [rev]. rewrite dict_get_app, IH by exact ND'. cbn [dict_get].
  destruct (String.eqb_spec k k0) as [->|N].
  - apply dict_get_none_iff in Hn. rewrite Hn. reflexivity.
  - destruct (dict_get k d); reflexivity.
Qed.

(** X10: for a known injury type the result is the stored record with a
    status added: every field of the record is returned with its value,
    no other key appears, and ["status"] is ["success"] unless the record
    has a field of that name, whose value then replaces it. *)
Theorem known_injury_type_returns_record
    (lib : list (string * dict)) (injury_type : string) (protocol : dict) :
  library_get injury_type lib = Some protocol ->
  NoDup (map fst protocol) ->
  let r := get_corrective_exercises (Loaded lib) injury_type in
  (forall k v, dict_get k protocol = Some v -> dict_get k r = Some v) /\
  (dict_get "status" protocol = None -> dict_get "status" r = Some (VStr "success")) /\
  (forall k, k <> "status" -> dict_get k protocol = None -> dict_get k r = None).
Proof.
  intros H ND r. unfold r, get_corrective_exercises. rewrite H.
  split; [|split].
  - intros k v G. rewrite dict_get_update, dict_get_rev, G by exact ND. reflexivity.
  - intros G. rewrite dict_get_update, dict_get_rev, G by exact ND. reflexivity.
  - intros k N G. rewrite dict_get_update, dict_get_rev, G by exact ND.
    cbn [dict_get]. destruct (String.eqb_spec k "status"); [congruence|reflexivity].
Qed.

Lemma known_injury_type_returns_record_witness :
  let lib := [ ("IT_band", [ ("injury_name", VStr "IT Band Syndrome");
                             ("status", VStr "draft") ]) ] in
  dict_get "injury_name" (get_corrective_exercises (Loaded lib) "IT_band")
    = Some (VStr "IT Band Syndrome") /\
  dict_get "status" (get_corrective_exercises (Loaded lib) "IT_band")
    = Some (VStr "draft").
Proof.
  intros lib.
  assert (ND : NoDup (map fst [ ("injury_name", VStr "IT Band Syndrome");
                                ("status", VStr "draft") ])).
  { cbn. repeat constructor; cbn; intros H;
      repeat (destruct H as [H|H]; [discriminate H|]); exact H. }
  destruct (known_injury_type_returns_record lib "IT_band" _ eq_refl ND) as (A & _ & _).
  split; apply A; reflexivity.
Defined.

End MoreExercises.

(** ** Inputs that are not numbers, and the prior score *)

Section MoreEdges.

Import PyFloat TrainingTools Results.

Local Open Scope string_scope.
Local Open Scope float_scope.

Lemma is_nan_SF x : is_nan x = true <-> Prim2SF x = S754_nan.
Proof.
  rewrite is_nan_true.
  destruct (Prim2SF x) as [[]|[]| |[] m e]; cbn; split; intros H;
    try discriminate H; reflexivity.
Qed.

Lemma add_nan_l a x : is_nan a = true -> is_nan (a + x) = true.
Proof.
  rewrite !is_nan_SF, add_spec. intros ->. reflexivity.
Qed.

Lemma add_nan_r a x : is_nan x = true -> is_nan (a + x) = true.
Proof.
  rewrite !is_nan_SF, add_spec. intros ->.
  destruct (Prim2SF a) as [[]|[]| |[] m e]; reflexivity.
Qed.

Lemma div_nan_l a x : is_nan a = true -> is_nan (a / x) = true.
Proof.
  rewrite !is_nan_SF, div_spec. intros ->. reflexivity.
Qed.

Lemma div_nan_r a x : is_nan x = true -> is_nan (a / x) = true.
Proof.
  rewrite !is_nan_SF, div_spec. intros ->.
  destruct (Prim2SF a) as [[]|[]| |[] m e]; reflexivity.
Qed.

Lemma sum_from_nan l : forall a,
  is_nan a = true \/ (exists x, In x l /\ is_nan x = true) ->
  is_nan (fold_left add l a) = true.
Proof.
  induction l as [|y l IH]; intros a H; cbn [fold_left].
  - destruct H as [H|(x & [] & _)]. exact H.
  - apply IH. destruct H as [H|(x & [<-|I] & N)].
    + left. apply add_nan_l, H.
    + left. apply add_nan_r, N.
    + right. exists x. split; assumption.
Qed.

(** X11: a NaN among the 28 daily mileages is not reported: the call
    returns a success whose risk level is SAFE, whatever the other
    entries and the last seven days are. *)
Theorem acwr_nan_is_safe (last7 last28 : list float) :
  (exists x, In x last28 /\ is_nan x = true) ->
  exists r,
    calculate_acwr last7 last28 = Returns r /\
    dict_get "status" r = Some (VStr "success") /\
    dict_get "risk_level" r = Some (VStr "SAFE").
Proof.
  intros H. rewrite acwr_unfold. cbv zeta.
  assert (C : is_nan (py_sum last28 / 28) = true).
  { apply div_nan_l. unfold py_sum. apply sum_from_nan. right. exact H. }
  assert (Z : (py_sum last28 / 28 =? 0) = false).
  { apply is_nan_SF in C. rewrite eqb_spec, C. reflexivity. }
  rewrite Z. eexists. split; [reflexivity|]. split; [reflexivity|].
  cbn [dict_get String.eqb Ascii.eqb Bool.eqb]. do 2 f_equal.
  apply risk_safe. right. apply div_nan_r, C.
Qed.

Lemma acwr_nan_is_safe_witness :
  exists r,
    calculate_acwr [10; 0; 8; 0; 12; 0; 14] (nan :: repeat 5 27) = Returns r /\
    dict_get "status" r = Some (VStr "success") /\
    dict_get "risk_level" r = Some (VStr "SAFE").
Proof.
  apply acwr_nan_is_safe. exists nan. split; [left; reflexivity|reflexivity].
Defined.

(** X12: the prior score decides nothing but the ["improvement"] field:
    two calls that differ only in it raise the same exception or return
    results that agree on every other key. *)
Theorem adjust_paces_prior_only_improvement (d t : float) (v v' : option float) :
  match adjust_paces_from_race d t v, adjust_paces_from_race d t v' with
  | Returns r, Returns r' =>
      forall k, k <> "improvement" -> dict_get k r = dict_get k r'
  | Raises e, Raises e' => e = e'
  | _, _ => False
  end.
Proof.
  unfold adjust_paces_from_race.
  destruct (py_div t d) as [pace|e]; cbn [bind]; [|reflexivity].
  destruct (prediction_time (predict_marathon d pace)) as [time|e]; cbn [bind];
    [|reflexivity].
  intros k N. cbn [dict_get].
  repeat match goal with
  | |- context [String.eqb k ?s] => destruct (String.eqb_spec k s) as [E|_];
      [first [reflexivity | congruence]|]
  end.
  reflexivity.
Qed.

End MoreEdges.

(** * The profile store *)

Section ProfileStore.

Import ProfileManager.

Local Open Scope string_scope.

Variable datetime : Type.
Variable isoformat : datetime -> string.
Variable fromisoformat : string -> option datetime.

(** [fromisoformat] reads back what [isoformat] writes, which is never the
    empty string. *)
Hypothesis fromisoformat_isoformat : forall d, fromisoformat (isoformat d) = Some d.
Hypothesis isoformat_not_empty : forall d, isoformat d <> "".

Lemma email_is_own (e : option string) : email_is (opt_str e) e = true.
Proof. destruct e as [s|]; cbn; [apply String.eqb_refl|reflexivity]. Qed.

Lemma email_is_other v (e : option string) e' :
  email_is v e = true -> e <> Some e' -> email_is v (Some e') = false.
Proof.
  destruct v as [| | | |s0| |], e as [s|]; cbn; try discriminate; try reflexivity.
  intros H N. apply String.eqb_eq in H. subst.
  apply String.eqb_neq. congruence.
Qed.

Lemma to_dict_email (p : UserProfile datetime) :
  get_or_none "email" (to_dict isoformat p) = opt_str (email p).
Proof. reflexivity. Qed.

Lemma find_user_app e (a b : list dict) :
  find_user e (a ++ b) =
  match find_user e a with Some u => Some u | None => find_user e b end.
Proof.
  induction a as [|u a IH]; cbn [app find_user]; [reflexivity|].
  destruct (email_is _ _); [reflexivity|exact IH].
Qed.

Lemma replace_first_none_find eo e pd users :
  replace_first eo pd users = None -> eo = Some e -> find_user e users = None.
Proof.
  intros H ->. induction users as [|u us IH]; cbn in *; [reflexivity|].
  destruct (email_is _ _); [discriminate|].
  destruct (replace_first _ _ us); [discriminate|]. apply IH. reflexivity.
Qed.

(** After the update the first user with the profile's email is the
    profile's own dictionary. *)
Lemma replace_first_find e pd users users' :
  email_is (get_or_none "email" pd) (Some e) = true ->
  replace_first (Some e) pd users = Some users' ->
  find_user e users' = Some pd.
Proof.
  intros Hpd. revert users'.
  induction users as [|u us IH]; intros users' H; cbn in H; [discriminate|].
  destruct (email_is (get_or_none "email" u) (Some e)) eqn:M.
  - injection H as <-. cbn. rewrite Hpd. reflexivity.
  - destruct (replace_first (Some e) pd us) as [us'|]; [|discriminate].
    injection H as <-. cbn. rewrite M. apply IH. reflexivity.
Qed.

(** The update does not change which user any other email finds. *)
Lemma replace_first_find_other eo e' pd users users' :
  eo <> Some e' ->
  email_is (get_or_none "email" pd) eo = true ->
  replace_first eo pd users = Some users' ->
  find_user e' users' = find_user e' users.
Proof.
  intros N Hpd. revert users'.
  induction users as [|u us IH]; intros users' H; cbn in H; [discriminate|].
  destruct (email_is (get_or_none "email" u) eo) eqn:M.
  - injection H as <-. cbn.
    rewrite (email_is_other _ _ _ Hpd N), (email_is_other _ _ _ M N). reflexivity.
  - destruct (replace_first eo pd us) as [us'|]; [|discriminate].
    injection H as <-. cbn. rewrite (IH us' eq_refl). reflexivity.
Qed.

Lemma replace_first_again eo pd users users' :
  email_is (get_or_none "email" pd) eo = true ->
  replace_first eo pd users = Some users' ->
  replace_first eo pd users' = Some users'.
Proof.
  intros Hpd. revert users'.
  induction users as [|u us IH]; intros users' H; cbn in H; [discriminate|].
  destruct (email_is (get_or_none "email" u) eo) eqn:M.
  - injection H as <-. cbn. rewrite Hpd. reflexivity.
  - destruct (replace_first eo pd us) as [us'|]; [|discriminate].
    injection H as <-. cbn. rewrite M, (IH us' eq_refl). reflexivity.
Qed.

Lemma replace_first_appended eo pd users :
  email_is (get_or_none "email" pd) eo = true ->
  replace_first eo pd users = None ->
  replace_first eo pd (users ++ [pd]) = Some (users ++ [pd])%list.
Proof.
  intros Hpd. induction users as [|u us IH]; intros H; cbn in *.
  - rewrite Hpd. reflexivity.
  - destruct (email_is (get_or_none "email" u) eo); [discriminate|].
    destruct (replace_first eo pd us); [discriminate|].
    rewrite (IH eq_refl). reflexivity.
Qed.

Lemma replace_first_length eo pd users users' :
  replace_first eo pd users = Some users' -> List.length users' = List.length users.
Proof.
  revert users'. induction users as [|u us IH]; intros users' H; cbn in H; [discriminate|].
  destruct (email_is _ _).
  - injection H as <-. reflexivity.
  - destruct (replace_first eo pd us) as [us'|]; [|discriminate].
    injection H as <-. cbn. rewrite (IH us' eq_refl). reflexivity.
Qed.

Lemma replace_first_some_iff eo pd users :
  (exists users', replace_first eo pd users = Some users') <->
  existsb (fun u => email_is (get_or_none "email" u) eo) users = true.
Proof.
  induction users as [|u us IH]; cbn.
  - split; [intros [? H]; discriminate|discriminate].
  - destruct (email_is _ _); cbn.
    + split; [reflexivity|]. intros _. eexists. reflexivity.
    + rewrite <- IH. destruct (replace_first eo pd us); cbn.
      * split; intros _; eexists; reflexivity.
      * split; intros [? H]; discriminate.
Qed.

(** What [load_profile] reads back from the dictionary of a profile that
    has its race date. *)
Lemma read_own_dict (p : UserProfile datetime) e d :
  email p = Some e -> goal_race_date p = Some d ->
  read_profile fromisoformat e (to_dict isoformat p) = inr p.
Proof.
  destruct p as [n em a w gd al cm gr hm md mdist]. cbn [email goal_race_date].
  intros -> ->. unfold read_profile, to_dict, get_or_none, get_or.
  cbn [dict_get String.eqb Ascii.eqb Bool.eqb
       name email age weight goal_distance ability_level current_weekly_mileage
       goal_race_date has_milestone milestone_date milestone_distance
       opt_str iso_or_none parse_date].
  rewrite fromisoformat_isoformat.
  destruct md as [d'|]; cbn [iso_or_none value_truthy parse_date].
  - destruct (String.eqb_spec (isoformat d') "") as [E|_].
    + destruct (isoformat_not_empty d' E).
    + cbn [negb]. rewrite fromisoformat_isoformat. reflexivity.
  - reflexivity.
Qed.

Lemma is_complete_fields (p : UserProfile datetime) :
  is_complete p = true -> exists e d, email p = Some e /\ goal_race_date p = Some d.
Proof.
  unfold is_complete. intros H.
  repeat (apply andb_true_iff in H; destruct H as [H ?]).
  destruct (email p) as [e|]; [|discriminate].
  destruct (goal_race_date p) as [d|]; [|discriminate].
  exists e, d. split; reflexivity.
Qed.

Lemma load_after_save (p : UserProfile datetime) e file :
  email p = Some e ->
  load_profile fromisoformat e (Some (fst (save_profile isoformat p file))) =
  match read_profile fromisoformat e (to_dict isoformat p) with
  | inl x => Raised x
  | inr q => Returned (Some q)
  end.
Proof.
  intros He. unfold load_profile, save_profile. rewrite He.
  assert (Hpd : email_is (get_or_none "email" (to_dict isoformat p)) (Some e) = true).
  { rewrite to_dict_email, He. apply email_is_own. }
  destruct (replace_first (Some e) (to_dict isoformat p)
              match file with Some users => users | None => [] end) as [users'|] eqn:R;
    cbn [fst].
  - rewrite (replace_first_find _ _ _ _ Hpd R). reflexivity.
  - rewrite find_user_app, (replace_first_none_find _ e _ _ R eq_refl).
    cbn [find_user]. rewrite Hpd. reflexivity.
Qed.

(** X13: a complete profile that is saved is loaded back unchanged under
    its email, whatever the users file held before (nothing, other users,
    or an older profile with this email). *)
Theorem save_then_load_complete (p : UserProfile datetime) (e : string) (file : option (list dict)) :
  is_complete p = true ->
  email p = Some e ->
  load_profile fromisoformat e (Some (fst (save_profile isoformat p file))) = Returned (Some p).
Proof.
  intros C He. destruct (is_complete_fields p C) as (e' & d & _ & Hd).
  rewrite (load_after_save p e file He), (read_own_dict p e d He Hd). reflexivity.
Qed.

(** X14: a profile saved without its race date cannot be loaded back:
    [load_profile] raises [TypeError] on it, whatever its other fields. *)
Theorem load_without_race_date_raises
    (p : UserProfile datetime) (e : string) (file : option (list dict)) :
  email p = Some e ->
  goal_race_date p = None ->
  load_profile fromisoformat e (Some (fst (save_profile isoformat p file))) = Raised TypeError.
Proof.
  intros He Hd. rewrite (load_after_save p e file He).
  destruct p as [n em a w gd al cm gr hm md mdist]. cbn [email goal_race_date] in *.
  subst. reflexivity.
Qed.

(** X15: saving a profile does not change what any other email loads:
    neither the profile found for it nor the exception raised for it. *)
Theorem save_keeps_other_users
    (p : UserProfile datetime) (e' : string) (file : option (list dict)) :
  email p <> Some e' ->
  load_profile fromisoformat e' (Some (fst (save_profile isoformat p file))) = load_profile fromisoformat e' file.
Proof.
  intros N. unfold load_profile, save_profile.
  assert (Hpd : email_is (get_or_none "email" (to_dict isoformat p)) (email p) = true).
  { rewrite to_dict_email. apply email_is_own. }
  destruct (replace_first (email p) (to_dict isoformat p)
              match file with Some users => users | None => [] end) as [users'|] eqn:R;
    cbn [fst].
  - rewrite (replace_first_find_other _ _ _ _ _ N Hpd R).
    destruct file as [users|]; reflexivity.
  - rewrite find_user_app. cbn [find_user].
    rewrite (email_is_other _ _ _ Hpd N).
    destruct file as [users|]; [|reflexivity].
    destruct (find_user e' users); reflexivity.
Qed.

(** X16: [save_profile] reports an update exactly when some stored user
    has the profile's email, and then the number of users is unchanged;
    otherwise it reports a creation and there is one user more. *)
Theorem save_updates_or_creates (p : UserProfile datetime) (file : option (list dict)) :
  let users := match file with Some users => users | None => [] end in
  let known := existsb (fun u => email_is (get_or_none "email" u) (email p)) users in
  snd (save_profile isoformat p file) = (if known then Updated else Created) /\
  List.length (fst (save_profile isoformat p file)) =
    (if known then List.length users else S (List.length users)).
Proof.
  intros users known. unfold save_profile. fold users.
  pose proof (replace_first_some_iff (email p) (to_dict isoformat p) users) as I.
  fold known in I.
  destruct (replace_first (email p) (to_dict isoformat p) users) as [users'|] eqn:R;
    cbn [fst snd].
  - assert (K : known = true) by (apply I; eexists; reflexivity).
    rewrite K. split; [reflexivity|]. apply (replace_first_length _ _ _ _ R).
  - destruct known.
    + destruct (proj2 I eq_refl) as [? H]. discriminate H.
    + split; [reflexivity|]. rewrite length_app. cbn. lia.
Qed.

(** X17: saving the same profile a second time changes nothing in the
    file and is reported as an update. *)
Theorem save_twice (p : UserProfile datetime) (file : option (list dict)) :
  save_profile isoformat p (Some (fst (save_profile isoformat p file))) = (fst (save_profile isoformat p file), Updated).
Proof.
  assert (Hpd : email_is (get_or_none "email" (to_dict isoformat p)) (email p) = true).
  { rewrite to_dict_email. apply email_is_own. }
  unfold save_profile at 2 3.
  destruct (replace_first (email p) (to_dict isoformat p)
              match file with Some users => users | None => [] end) as [users'|] eqn:R;
    cbn [fst]; unfold save_profile.
  - rewrite (replace_first_again _ _ _ _ Hpd R). reflexivity.
  - rewrite (replace_first_appended _ _ _ Hpd R). reflexivity.
Qed.

(** X18: an email that no stored user has loads nothing and raises
    nothing, whatever the other users' records hold; so does any email
    when the users file does not exist. *)
Theorem load_unknown_email (e : string) (users : list dict) :
  (forall u, In u users -> get_or_none "email" u <> VStr e) ->
  load_profile fromisoformat e (Some users) = Returned None /\
  load_profile fromisoformat e None = Returned None.
Proof.
  intros H. split; [|reflexivity]. unfold load_profile.
  assert (F : find_user e users = None).
  { induction users as [|u us IH]; [reflexivity|].
    cbn [find_user].
    destruct (email_is (get_or_none "email" u) (Some e)) eqn:M.
    - exfalso. apply (H u); [left; reflexivity|].
      destruct (get_or_none "email" u); cbn in M; try discriminate.
      apply String.eqb_eq in M. congruence.
    - apply IH. intros u' I. apply (H u'). right. exact I. }
  rewrite F. reflexivity.
Qed.

End ProfileStore.

Section ProfileWitnesses.

Import ProfileManager ExampleProfiles.

Local Open Scope string_scope.

Lemma text_round_trip d : text_fromisoformat (text_isoformat d) = Some d.
Proof. reflexivity. Qed.

Lemma text_not_empty d : text_isoformat d <> "".
Proof. discriminate. Qed.

Lemma save_then_load_complete_witness :
  is_complete ana = true /\
  load_profile text_fromisoformat "ana@example.org"
    (Some (fst (save_profile text_isoformat ana users_file))) = Returned (Some ana).
Proof.
  split; [reflexivity|].
  apply (save_then_load_complete string text_isoformat text_fromisoformat
           text_round_trip text_not_empty ana "ana@example.org" users_file);
    reflexivity.
Defined.

Lemma load_without_race_date_raises_witness :
  load_profile text_fromisoformat "ben@example.org"
    (Some (fst (save_profile text_isoformat ben None))) = Raised TypeError.
Proof.
  apply (load_without_race_date_raises string text_isoformat text_fromisoformat
           ben "ben@example.org" None); reflexivity.
Defined.

Lemma save_keeps_other_users_witness :
  load_profile text_fromisoformat "ben@example.org"
    (Some (fst (save_profile text_isoformat ana users_file))) =
  load_profile text_fromisoformat "ben@example.org" users_file.
Proof.
  apply (save_keeps_other_users string text_isoformat text_fromisoformat
           ana "ben@example.org" users_file).
  discriminate.
Defined.

Lemma load_unknown_email_witness :
  load_profile text_fromisoformat "ana@example.org"
    (Some [to_dict text_isoformat ben]) = Returned None.
Proof.
  apply (load_unknown_email string text_fromisoformat "ana@example.org"
           [to_dict text_isoformat ben]).
  intros u [<-|[]]. discriminate.
Defined.

End ProfileWitnesses.
